(** * Posture detection backend: geometry, posture rules and pipelines

    A shallow embedding of [backend/main.py].

    Numbers.  The program computes with IEEE doubles (Python [float],
    [numpy.float64]).  Here a finite double is a real number and the three
    special values are kept apart ([float64] below), so division by zero,
    comparisons with NaN and [int()] of a non-finite value behave as they do
    in numpy and Python.  Rounding and overflow of finite arithmetic are not
    part of the model: every result below is about exact arithmetic.

    Exceptions.  Code that can raise lives in a small state-and-exception
    monad; the state survives a raise, as the local list [issues] does in
    the two rule checkers. *)

From Stdlib Require Import Reals Lra Lia List String Ascii ZArith Bool Arith.
From Stdlib Require Import DecimalString ZifyNat.
Import ListNotations.

Open Scope R_scope.

(** ** Exceptions and the state-and-exception monad *)

(** The exceptions the modelled code can raise; all of them derive from
    Python's [Exception]. *)
Inductive exn : Type :=
| IndexError        (* sequence index out of range *)
| AttributeError    (* attribute access on None *)
| ValueError        (* int() of NaN *)
| OverflowError     (* int() of an infinity *)
| FileNotFoundError (* os.remove of a path that does not exist *)
| CvError.          (* cv2.error *)

Inductive result (A : Type) : Type :=
| Ok (a : A)
| Raise (e : exn).

Arguments Ok {A} a.
Arguments Raise {A} e.

Definition M (S A : Type) : Type := S -> result A * S.

Definition ret {S A : Type} (a : A) : M S A := fun s => (Ok a, s).

Definition raise {S A : Type} (e : exn) : M S A := fun s => (Raise e, s).

Definition bind {S A B : Type} (m : M S A) (k : A -> M S B) : M S B :=
  fun s =>
    match m s with
    | (Ok a, s') => k a s'
    | (Raise e, s') => (Raise e, s')
    end.

Definition lift {S A : Type} (r : result A) : M S A := fun s => (r, s).

Definition get {S : Type} : M S S := fun s => (Ok s, s).

Definition modify {S : Type} (f : S -> S) : M S unit := fun s => (Ok tt, f s).

(** [try: m  except Exception: pass] *)
Definition try_except_pass {S : Type} (m : M S unit) : M S unit :=
  fun s =>
    match m s with
    | (Ok _, s') => (Ok tt, s')
    | (Raise _, s') => (Ok tt, s')
    end.

Declare Scope monad_scope.
Delimit Scope monad_scope with monad.
Notation "x <- m ;; k" := (bind m (fun x => k))
  (at level 61, m at next level, right associativity) : monad_scope.
Notation "m ;;; k" := (bind m (fun _ => k))
  (at level 61, right associativity) : monad_scope.

(** ** Doubles *)

Inductive float64 : Type :=
| Fin (r : R)
| PosInf
| NegInf
| NaN.

Definition Rltb (a b : R) : bool := if Rlt_dec a b then true else false.

(** [n / d] on two finite doubles, numpy semantics: a zero divisor gives
    NaN for [0 / 0] and a signed infinity otherwise (with a warning, not an
    exception). *)
Definition np_div (n d : R) : float64 :=
  if Req_dec_T d 0 then
    if Req_dec_T n 0 then NaN
    else if Rlt_dec 0 n then PosInf else NegInf
  else Fin (n / d).

(** [np.clip(v, lo, hi)]; NaN goes through. *)
Definition np_clip (v : float64) (lo hi : R) : float64 :=
  match v with
  | Fin r => Fin (Rmin (Rmax r lo) hi)
  | PosInf => Fin hi
  | NegInf => Fin lo
  | NaN => NaN
  end.

(** [np.arccos]: NaN outside [-1, 1]. *)
Definition np_arccos (v : float64) : float64 :=
  match v with
  | Fin r => if Rle_dec (-1) r then if Rle_dec r 1 then Fin (acos r) else NaN else NaN
  | _ => NaN
  end.

(** [np.degrees] *)
Definition np_degrees (v : float64) : float64 :=
  match v with
  | Fin r => Fin (r * (180 / PI))
  | other => other
  end.

(** [v < w], [v > w]: false as soon as one side is NaN. *)
Definition f64_ltb (v w : float64) : bool :=
  match v, w with
  | Fin a, Fin b => Rltb a b
  | Fin _, PosInf => true
  | NegInf, Fin _ => true
  | NegInf, PosInf => true
  | _, _ => false
  end.

Definition f64_gtb (v w : float64) : bool := f64_ltb w v.

(** [v - c] and [abs(v)] for a finite constant [c]. *)
Definition f64_sub (v : float64) (c : R) : float64 :=
  match v with
  | Fin r => Fin (r - c)
  | other => other
  end.

Definition f64_abs (v : float64) : float64 :=
  match v with
  | Fin r => Fin (Rabs r)
  | PosInf | NegInf => PosInf
  | NaN => NaN
  end.

(** Truncation toward zero. *)
Definition trunc (r : R) : Z :=
  if Rle_dec 0 r then Int_part r else (- Int_part (- r))%Z.

(** Python's [int(v)] on a double. *)
Definition py_int (v : float64) : result Z :=
  match v with
  | Fin r => Ok (trunc r)
  | PosInf | NegInf => Raise OverflowError
  | NaN => Raise ValueError
  end.

(** [str(n)] for a Python int. *)
Definition py_str (n : Z) : string := NilZero.string_of_int (Z.to_int n).

(** ** Geometry *)

Definition point : Type := (R * R)%type.

Definition sub2 (p q : point) : point := (fst p - fst q, snd p - snd q).

Definition dot (u v : point) : R := fst u * fst v + snd u * snd v.

(** [np.linalg.norm] of a 2-vector *)
Definition norm (u : point) : R := sqrt (dot u u).

Definition calculate_angle (a b c : point) : float64 :=
  let ba := sub2 a b in
  let bc := sub2 c b in
  let cosine_angle := np_div (dot ba bc) (norm ba * norm bc) in
  let angle := np_arccos (np_clip cosine_angle (-1) 1) in
  np_degrees angle.

(** ** Landmarks *)

Record Landmark : Type := mkLandmark { x : R; y : R; visibility : R }.

(** Positions of the joints in [mp.solutions.pose.PoseLandmark]. *)
Module PoseLandmark.
Definition LEFT_EAR : nat := 7.
Definition LEFT_SHOULDER : nat := 11.
Definition LEFT_HIP : nat := 23.
Definition LEFT_KNEE : nat := 25.
Definition LEFT_ANKLE : nat := 27.
Definition LEFT_FOOT_INDEX : nat := 31.
End PoseLandmark.

(** What the rule checkers index: a Python sequence.  An index past the end
    raises IndexError; an entry may be [None], and reading [.x] of it raises
    AttributeError. *)
Definition PyLandmarks : Type := list (option Landmark).

Definition Issues : Type := list string.

Definition getitem (landmarks : PyLandmarks) (i : nat) : M Issues (option Landmark) :=
  match nth_error landmarks i with
  | Some v => ret v
  | None => raise IndexError
  end.

Definition getattr (f : Landmark -> R) (o : option Landmark) : M Issues R :=
  match o with
  | Some lm => ret (f lm)
  | None => raise AttributeError
  end.

(** [issues.append(s)] *)
Definition append (s : string) : M Issues unit := modify (fun issues => issues ++ [s]).

Definition degree_sign : string := "°".

Definition knee_over_toe_issue : string := "Left knee over toe".

Definition back_angle_issue (n : Z) : string :=
  "Back angle too small: " ++ py_str n ++ degree_sign.

Definition neck_bend_issue (n : Z) : string :=
  "Neck bend too large: " ++ py_str n ++ degree_sign.

Definition back_not_straight_issue (n : Z) : string :=
  "Back not straight: " ++ py_str n ++ degree_sign.

Open Scope monad_scope.

(** The body of the [try] block of [check_squat_rules]. *)
Definition squat_try_block (landmarks : PyLandmarks) : M Issues unit :=
  left_knee <- getitem landmarks PoseLandmark.LEFT_KNEE ;;
  left_ankle <- getitem landmarks PoseLandmark.LEFT_ANKLE ;;
  left_hip <- getitem landmarks PoseLandmark.LEFT_HIP ;;
  left_shoulder <- getitem landmarks PoseLandmark.LEFT_SHOULDER ;;
  left_toe <- getitem landmarks PoseLandmark.LEFT_FOOT_INDEX ;;
  kx <- getattr x left_knee ;;
  tx <- getattr x left_toe ;;
  (if Rltb tx kx then append knee_over_toe_issue else ret tt) ;;;
  sx <- getattr x left_shoulder ;;
  sy <- getattr y left_shoulder ;;
  hx <- getattr x left_hip ;;
  hy <- getattr y left_hip ;;
  kx' <- getattr x left_knee ;;
  ky <- getattr y left_knee ;;
  let back_angle := calculate_angle (sx, sy) (hx, hy) (kx', ky) in
  if f64_ltb back_angle (Fin 150) then
    n <- lift (py_int back_angle) ;;
    append (back_angle_issue n)
  else ret tt.

(** [issues = []; try: ... except Exception: pass; return issues] *)
Definition run_checker (block : M Issues unit) : result Issues :=
  fst ((try_except_pass block ;;; get) []).

Definition check_squat_rules (landmarks : PyLandmarks) : result Issues :=
  run_checker (squat_try_block landmarks).

(** The body of the [try] block of [check_sitting_rules]. *)
Definition sitting_try_block (landmarks : PyLandmarks) : M Issues unit :=
  left_shoulder <- getitem landmarks PoseLandmark.LEFT_SHOULDER ;;
  left_ear <- getitem landmarks PoseLandmark.LEFT_EAR ;;
  left_hip <- getitem landmarks PoseLandmark.LEFT_HIP ;;
  vx <- getattr x left_shoulder ;;
  vy <- getattr y left_shoulder ;;
  let vertical := (vx, vy - 1) in
  sx <- getattr x left_shoulder ;;
  sy <- getattr y left_shoulder ;;
  ex <- getattr x left_ear ;;
  ey <- getattr y left_ear ;;
  let neck_angle := calculate_angle (sx, sy) (ex, ey) vertical in
  (if f64_gtb neck_angle (Fin 30) then
     n <- lift (py_int neck_angle) ;;
     append (neck_bend_issue n)
   else ret tt) ;;;
  sx' <- getattr x left_shoulder ;;
  sy' <- getattr y left_shoulder ;;
  hx <- getattr x left_hip ;;
  hy <- getattr y left_hip ;;
  hx' <- getattr x left_hip ;;
  hy' <- getattr y left_hip ;;
  let back_angle := calculate_angle (sx', sy') (hx, hy) (hx', hy' - 1) in
  if f64_gtb (f64_abs (f64_sub back_angle 180)) (Fin 20) then
    n <- lift (py_int back_angle) ;;
    append (back_not_straight_issue n)
  else ret tt.

Definition check_sitting_rules (landmarks : PyLandmarks) : result Issues :=
  run_checker (sitting_try_block landmarks).

Close Scope monad_scope.

(** ** Results returned by the endpoints *)

(** One entry of [keypoints]: the dict with keys x, y and visibility. *)
Record Keypoint : Type := mkKeypoint { kp_x : R; kp_y : R; kp_visibility : R }.

Definition keypoint_of (lm : Landmark) : Keypoint :=
  {| kp_x := x lm; kp_y := y lm; kp_visibility := visibility lm |}.

(** The dict returned by [analyze_frame]. *)
Record ImageResult : Type := mkImageResult {
  issues : Issues;
  keypoints : list Keypoint
}.

(** One entry of [frame_results] in [analyze_video]. *)
Record FrameResult : Type := mkFrameResult {
  frame : nat;
  frame_issues : Issues;
  frame_keypoints : list Keypoint
}.

(** The dict returned by [analyze_video]. *)
Record VideoResult : Type := mkVideoResult { frames : list FrameResult }.

(** The block both endpoints run on the answer of the pose model
    ([results.pose_landmarks], [None] when no body is found): choose the
    rule checker by [activity], then copy the landmarks into [keypoints].
    The pose model hands over a typed container, so every entry the
    checkers see is a landmark object. *)
Definition rules_and_keypoints (activity : string) (pose_landmarks : option (list Landmark))
  : result (Issues * list Keypoint) :=
  match pose_landmarks with
  | Some landmarks =>
      let checked :=
        if (activity =? "squat")%string then check_squat_rules (map Some landmarks)
        else if (activity =? "sitting")%string then check_sitting_rules (map Some landmarks)
        else Ok [] in
      match checked with
      | Ok found => Ok (found, map keypoint_of landmarks)
      | Raise e => Raise e
      end
  | None => Ok ([], [])
  end.

(** ** Temporary files *)

Definition Bytes : Type := list Byte.byte.
Definition Path : Type := nat.

(** The temporary directory: the files in it, by path. *)
Definition FS : Type := list (Path * Bytes).

Definition fresh_path (fs : FS) : Path := S (list_max (map fst fs)).

Fixpoint lookup (p : Path) (fs : FS) : option Bytes :=
  match fs with
  | [] => None
  | (q, content) :: rest => if Nat.eqb p q then Some content else lookup p rest
  end.

Definition exists_path (p : Path) (fs : FS) : bool :=
  match lookup p fs with Some _ => true | None => false end.

Definition unlink (p : Path) (fs : FS) : FS :=
  filter (fun entry => negb (Nat.eqb p (fst entry))) fs.

(** [with tempfile.NamedTemporaryFile(delete=False, ...) as temp:
       temp.write(content); temp_path = temp.name] *)
Definition NamedTemporaryFile (content : Bytes) : M FS Path :=
  fun fs => let p := fresh_path fs in (Ok p, (p, content) :: fs).

(** [os.remove(path)] *)
Definition os_remove (p : Path) : M FS unit :=
  fun fs => if exists_path p fs then (Ok tt, unlink p fs) else (Raise FileNotFoundError, fs).

(** ** The two endpoints

    The decoders, the colour conversion and the pose model are external;
    they are the parameters of this section. *)
Section Endpoints.

Variable Image : Type.
(** [cv2.imread] on the content of a file: [None] when it is no image. *)
Variable decode_image : Bytes -> option Image.
(** [cv2.VideoCapture] on the content of a file: the frames that
    [cap.read()] delivers, [None] when the capture does not open. *)
Variable decode_video : Bytes -> option (list Image).
Variable bgr2rgb : Image -> Image.
(** [mp_pose.Pose]: it keeps state between calls of [process] (tracking
    when [static_image_mode] is false). *)
Variable PoseState : Type.
Variable Pose : bool -> PoseState.
Variable pose_process : PoseState -> Image -> PoseState * option (list Landmark).

(** [cv2.imread(path)] *)
Definition cv2_imread (p : Path) : M FS (option Image) :=
  fun fs =>
    match lookup p fs with
    | Some content => (Ok (decode_image content), fs)
    | None => (Ok None, fs)
    end.

(** [cv2.cvtColor(src, cv2.COLOR_BGR2RGB)]: raises on an empty image. *)
Definition cv2_cvtColor (src : option Image) : result Image :=
  match src with
  | Some img => Ok (bgr2rgb img)
  | None => Raise CvError
  end.

Record VideoCapture : Type := mkCapture { isOpened : bool; pending : list Image }.

(** [cv2.VideoCapture(path)] *)
Definition cv2_VideoCapture (p : Path) : M FS VideoCapture :=
  fun fs =>
    match lookup p fs with
    | Some content =>
        match decode_video content with
        | Some images => (Ok (mkCapture true images), fs)
        | None => (Ok (mkCapture false []), fs)
        end
    | None => (Ok (mkCapture false []), fs)
    end.

Definition frame_skip : nat := 5.

(** The [while cap.isOpened()] loop of [analyze_video]; each turn reads
    one frame, so the recursion is on the frames still to be read. *)
Fixpoint video_loop (activity : string) (opened : bool) (to_read : list Image)
    (pose : PoseState) (frame_idx processed_idx : nat)
    (frame_results : list FrameResult) : result (list FrameResult) :=
  if opened then
    match to_read with
    | [] => Ok frame_results
    | image :: rest =>
        if negb (Nat.eqb (frame_idx mod frame_skip) 0) then
          video_loop activity opened rest pose (frame_idx + 1) processed_idx frame_results
        else
          match cv2_cvtColor (Some image) with
          | Raise e => Raise e
          | Ok image_rgb =>
              let (pose', results) := pose_process pose image_rgb in
              match rules_and_keypoints activity results with
              | Raise e => Raise e
              | Ok (found, points) =>
                  video_loop activity opened rest pose' (frame_idx + 1) (processed_idx + 1)
                    (frame_results ++ [mkFrameResult frame_idx found points])
              end
          end
    end
  else Ok frame_results.

Open Scope monad_scope.

(** [cap.release()] has no effect on the temporary directory and is left
    out; [os.remove] is the last step before the return. *)
Definition analyze_video (file : Bytes) (activity : string) : M FS VideoResult :=
  temp_path <- NamedTemporaryFile file ;;
  cap <- cv2_VideoCapture temp_path ;;
  let pose := Pose false in
  frame_results <- lift (video_loop activity (isOpened cap) (pending cap) pose 0 0 []) ;;
  os_remove temp_path ;;;
  ret (mkVideoResult frame_results).

Definition analyze_frame (file : Bytes) (activity : string) : M FS ImageResult :=
  temp_path <- NamedTemporaryFile file ;;
  image <- cv2_imread temp_path ;;
  let pose := Pose true in
  image_rgb <- lift (cv2_cvtColor image) ;;
  let results := snd (pose_process pose image_rgb) in
  checked <- lift (rules_and_keypoints activity results) ;;
  os_remove temp_path ;;;
  ret (mkImageResult (fst checked) (snd checked)).

Close Scope monad_scope.

End Endpoints.

Arguments cv2_imread {Image} decode_image p.
Arguments cv2_cvtColor {Image} bgr2rgb src.
Arguments mkCapture {Image} isOpened pending.
Arguments isOpened {Image} v.
Arguments pending {Image} v.
Arguments cv2_VideoCapture {Image} decode_video p.
Arguments video_loop {Image} bgr2rgb {PoseState} pose_process activity opened to_read pose
  frame_idx processed_idx frame_results.
Arguments analyze_video {Image} decode_video bgr2rgb {PoseState} Pose pose_process file activity.
Arguments analyze_frame {Image} decode_image bgr2rgb {PoseState} Pose pose_process file activity.

(** * Vocabulary of the statements *)

Import PoseLandmark.

(** The three states of a joint in the sequence given to a rule checker. *)
Definition present (landmarks : PyLandmarks) (i : nat) (lm : Landmark) : Prop :=
  nth_error landmarks i = Some (Some lm).

Definition missing (landmarks : PyLandmarks) (i : nat) : Prop :=
  nth_error landmarks i = None.

Definition absent (landmarks : PyLandmarks) (i : nat) : Prop :=
  nth_error landmarks i = Some None.

(** The issues of the two squat rules, as values of the joints. *)
Definition knee_rule (knee toe : Landmark) : Issues :=
  if Rltb (x toe) (x knee) then [knee_over_toe_issue] else [].

Definition squat_issues (knee hip shoulder toe : Landmark) : Issues :=
  knee_rule knee toe ++
  match calculate_angle (x shoulder, y shoulder) (x hip, y hip) (x knee, y knee) with
  | Fin deg => if Rltb deg 150 then [back_angle_issue (trunc deg)] else []
  | _ => []
  end.

(** The issues of the two sitting rules. *)
Definition neck_rule (shoulder ear : Landmark) : Issues :=
  match calculate_angle (x shoulder, y shoulder) (x ear, y ear) (x shoulder, y shoulder - 1) with
  | Fin deg => if Rltb 30 deg then [neck_bend_issue (trunc deg)] else []
  | _ => []
  end.

Definition sitting_issues (shoulder ear hip : Landmark) : Issues :=
  neck_rule shoulder ear ++
  match calculate_angle (x shoulder, y shoulder) (x hip, y hip) (x hip, y hip - 1) with
  | Fin deg => if Rltb 20 (Rabs (deg - 180)) then [back_not_straight_issue (trunc deg)] else []
  | _ => []
  end.





(** The frames [cap.read()] delivers for an upload. *)
Definition frames_of {Image : Type} (decode_video : Bytes -> option (list Image)) (file : Bytes)
  : list Image :=
  match decode_video file with Some images => images | None => [] end.

Section PoseAnswers.

Context {Image PoseState : Type}.
Variable bgr2rgb : Image -> Image.
Variable pose_process : PoseState -> Image -> PoseState * option (list Landmark).

(** What the pose model answers on the frames [analyze_video] hands to
    it, each answer with the index of its frame; the model is called on
    the sampled frames only and carries its state from call to call. *)
Fixpoint pose_answers (to_read : list Image) (pose : PoseState) (frame_idx : nat)
  : list (nat * option (list Landmark)) :=
  match to_read with
  | [] => []
  | image :: rest =>
      if Nat.eqb (frame_idx mod frame_skip) 0 then
        let (pose', results) := pose_process pose (bgr2rgb image) in
        (frame_idx, results) :: pose_answers rest pose' (frame_idx + 1)
      else pose_answers rest pose (frame_idx + 1)
  end.

End PoseAnswers.

(** A frame result built by the shared block from one answer of the pose
    model. *)
Definition built_from (activity : string) (answer : nat * option (list Landmark))
    (fr : FrameResult) : Prop :=
  frame fr = fst answer /\
  rules_and_keypoints activity (snd answer) = Ok (frame_issues fr, frame_keypoints fr).

(** ** Sample inputs *)

Definition at_xy (px py : R) : Landmark := mkLandmark px py 1.

(** A sequence of 33 entries given joint by joint. *)
Definition pose_of (joint : nat -> option Landmark) : PyLandmarks := map joint (seq 0 33).

Definition squat_pose (shoulder hip knee ankle toe : Landmark) : PyLandmarks :=
  pose_of (fun i =>
    if Nat.eqb i LEFT_SHOULDER then Some shoulder
    else if Nat.eqb i LEFT_HIP then Some hip
    else if Nat.eqb i LEFT_KNEE then Some knee
    else if Nat.eqb i LEFT_ANKLE then Some ankle
    else if Nat.eqb i LEFT_FOOT_INDEX then Some toe
    else Some (at_xy 0.5 0.5)).

(** Only the four joints whose coordinates the squat rules use; every other
    entry, the ankle included, is [None]. *)
Definition bare_squat_pose (shoulder hip knee toe : Landmark) : PyLandmarks :=
  pose_of (fun i =>
    if Nat.eqb i LEFT_SHOULDER then Some shoulder
    else if Nat.eqb i LEFT_HIP then Some hip
    else if Nat.eqb i LEFT_KNEE then Some knee
    else if Nat.eqb i LEFT_FOOT_INDEX then Some toe
    else None).

Definition sitting_pose (shoulder ear hip : Landmark) : PyLandmarks :=
  pose_of (fun i =>
    if Nat.eqb i LEFT_SHOULDER then Some shoulder
    else if Nat.eqb i LEFT_EAR then Some ear
    else if Nat.eqb i LEFT_HIP then Some hip
    else Some (at_xy 0.5 0.5)).

(** Knee beyond the toe, and no shoulder object. *)
Definition shoulder_absent_pose : PyLandmarks :=
  pose_of (fun i =>
    if Nat.eqb i LEFT_SHOULDER then None
    else if Nat.eqb i LEFT_KNEE then Some (at_xy 0.6 0.7)
    else if Nat.eqb i LEFT_FOOT_INDEX then Some (at_xy 0.5 0.9)
    else Some (at_xy 0.5 0.5)).

(** Sitting upright: the ear straight above the shoulder, the shoulder
    straight above the hip (y grows downwards in image coordinates). *)
Definition upright_sitting_pose : PyLandmarks :=
  sitting_pose (at_xy 0.5 0.5) (at_xy 0.5 0.3) (at_xy 0.5 0.8).

(** Deterministic stand-ins for the decoders and the pose model: an upload
    of n bytes decodes to the image n and to a video of the n frames
    0 .. n-1, the empty upload decodes to nothing, and the pose model finds
    a body in the even images. *)
Definition fake_decode_image (file : Bytes) : option nat :=
  match file with [] => None | _ => Some (List.length file) end.

Definition fake_decode_video (file : Bytes) : option (list nat) :=
  match file with [] => None | _ => Some (seq 0 (List.length file)) end.

Definition fake_bgr2rgb (image : nat) : nat := image.

Definition fake_Pose (static_image_mode : bool) : unit := tt.

Definition standing_landmarks : list Landmark := repeat (at_xy 0.5 0.5) 33.

Definition fake_pose_process (pose : unit) (image : nat) : unit * option (list Landmark) :=
  (pose, if Nat.even image then Some standing_landmarks else None).

Definition upload (n : nat) : Bytes := repeat Byte.x00 n.

(** * Properties *)

(** ** The angle function *)

Lemma Rltb_true (a b : R) : a < b -> Rltb a b = true.
Proof. intros H. unfold Rltb. destruct (Rlt_dec a b); [reflexivity | contradiction]. Qed.

Lemma Rltb_false (a b : R) : b <= a -> Rltb a b = false.
Proof. intros H. unfold Rltb. destruct (Rlt_dec a b); [lra | reflexivity]. Qed.

Lemma Rltb_spec (a b : R) : Rltb a b = true <-> a < b.
Proof.
  unfold Rltb. destruct (Rlt_dec a b); split; intros; try assumption; try reflexivity.
  - discriminate.
  - contradiction.
Qed.


Lemma norm_nonneg (u : point) : 0 <= norm u.
Proof. apply sqrt_pos. Qed.

Lemma norm_pos (u : point) : u <> (0, 0) -> 0 < norm u.
Proof.
  destruct u as [u1 u2]. intros Hu. unfold norm, dot. simpl.
  apply sqrt_lt_R0.
  destruct (Req_dec_T u1 0) as [E1 | N1].
  - destruct (Req_dec_T u2 0) as [E2 | N2].
    + exfalso. apply Hu. rewrite E1, E2. reflexivity.
    + nra.
  - nra.
Qed.

Lemma norm_zero : norm (0, 0) = 0.
Proof.
  unfold norm, dot. simpl.
  replace (0 * 0 + 0 * 0) with 0 by ring. apply sqrt_0.
Qed.

(** The norm of an axis-parallel vector. *)
Lemma norm_vertical (d : R) : norm (0, d) = Rabs d.
Proof.
  unfold norm, dot. simpl.
  replace (0 * 0 + d * d) with (Rsqr d) by (unfold Rsqr; ring).
  apply sqrt_Rsqr_abs.
Qed.

Lemma clip_range (q : R) : -1 <= Rmin (Rmax q (-1)) 1 <= 1.
Proof.
  unfold Rmin, Rmax.
  destruct (Rle_dec q (-1)); destruct (Rle_dec _ 1); lra.
Qed.

Lemma clip_id (q : R) : -1 <= q <= 1 -> Rmin (Rmax q (-1)) 1 = q.
Proof.
  intros H. unfold Rmin, Rmax.
  destruct (Rle_dec q (-1)); destruct (Rle_dec _ 1); lra.
Qed.

Lemma np_arccos_clip (q : R) :
  np_arccos (np_clip (Fin q) (-1) 1) = Fin (acos (Rmin (Rmax q (-1)) 1)).
Proof.
  simpl. pose proof (clip_range q) as [Hlo Hhi].
  destruct (Rle_dec (-1) (Rmin (Rmax q (-1)) 1)); [| contradiction].
  destruct (Rle_dec (Rmin (Rmax q (-1)) 1) 1); [reflexivity | contradiction].
Qed.

(** With a non-zero divisor the angle is the arc cosine of the clamped
    quotient, in degrees. *)
Lemma calculate_angle_fin (a b c : point) :
  norm (sub2 a b) * norm (sub2 c b) <> 0 ->
  calculate_angle a b c =
  Fin (acos (Rmin (Rmax (dot (sub2 a b) (sub2 c b) / (norm (sub2 a b) * norm (sub2 c b))) (-1)) 1)
       * (180 / PI)).
Proof.
  intros Hd. unfold calculate_angle, np_div.
  destruct (Req_dec_T (norm (sub2 a b) * norm (sub2 c b)) 0) as [E | _]; [contradiction |].
  rewrite np_arccos_clip. reflexivity.
Qed.

(** With a zero-length arm the quotient is [0 / 0] and the angle is NaN. *)
Lemma calculate_angle_degenerate (a b c : point) :
  sub2 a b = (0, 0) \/ sub2 c b = (0, 0) -> calculate_angle a b c = NaN.
Proof.
  intros H. unfold calculate_angle, np_div.
  assert (Hn : norm (sub2 a b) * norm (sub2 c b) = 0).
  { destruct H as [H | H]; rewrite H, norm_zero; ring. }
  assert (Hd : dot (sub2 a b) (sub2 c b) = 0).
  { destruct H as [H | H]; rewrite H; unfold dot; simpl; ring. }
  destruct (Req_dec_T _ 0) as [_ | N]; [| contradiction].
  destruct (Req_dec_T _ 0) as [_ | N]; [| contradiction].
  reflexivity.
Qed.





Lemma np_arccos_fin (r : R) : -1 <= r <= 1 -> np_arccos (Fin r) = Fin (acos r).
Proof.
  intros [Hlo Hhi]. simpl.
  destruct (Rle_dec (-1) r); [| contradiction].
  destruct (Rle_dec r 1); [reflexivity | contradiction].
Qed.

(** The angle is a finite number or NaN, never an infinity. *)
Lemma calculate_angle_fin_or_nan (a b c : point) :
  (exists deg, calculate_angle a b c = Fin deg) \/ calculate_angle a b c = NaN.
Proof.
  unfold calculate_angle, np_div.
  destruct (Req_dec_T _ 0) as [_ | _].
  - destruct (Req_dec_T _ 0) as [_ | _].
    + right. reflexivity.
    + left. destruct (Rlt_dec 0 _); cbn [np_clip];
        rewrite np_arccos_fin by lra; eexists; reflexivity.
  - left. rewrite np_arccos_clip. eexists. reflexivity.
Qed.

Lemma acos_m1 : acos (-1) = PI.
Proof. unfold acos. destruct (Rle_dec (-1) (-1)); [reflexivity | lra]. Qed.

Lemma calculate_angle_by_cos (a b c : point) (q : R) :
  norm (sub2 a b) * norm (sub2 c b) <> 0 ->
  -1 <= q <= 1 ->
  dot (sub2 a b) (sub2 c b) = q * (norm (sub2 a b) * norm (sub2 c b)) ->
  calculate_angle a b c = Fin (acos q * (180 / PI)).
Proof.
  intros Hn Hq Hd. rewrite calculate_angle_fin by assumption.
  rewrite Hd. set (n := norm (sub2 a b) * norm (sub2 c b)) in *.
  replace (q * n / n) with q by (field; assumption).
  rewrite clip_id by assumption. reflexivity.
Qed.

(** Both arms on the vertical line through the vertex: 180 degrees when
    they point in opposite directions, 0 when they point the same way. *)
Lemma calculate_angle_vertical (a b c : point) :
  fst a = fst b -> fst c = fst b ->
  ((snd a - snd b) * (snd c - snd b) < 0 -> calculate_angle a b c = Fin 180) /\
  (0 < (snd a - snd b) * (snd c - snd b) -> calculate_angle a b c = Fin 0).
Proof.
  intros Ha Hc.
  assert (Ea : sub2 a b = (0, snd a - snd b)) by (unfold sub2; f_equal; lra).
  assert (Ec : sub2 c b = (0, snd c - snd b)) by (unfold sub2; f_equal; lra).
  set (d1 := snd a - snd b) in *. set (d2 := snd c - snd b) in *.
  assert (En : norm (sub2 a b) * norm (sub2 c b) = Rabs (d1 * d2)).
  { rewrite Ea, Ec, !norm_vertical, Rabs_mult. reflexivity. }
  assert (Ed : dot (sub2 a b) (sub2 c b) = d1 * d2).
  { rewrite Ea, Ec. unfold dot. simpl. ring. }
  split; intros Hsign.
  - rewrite (calculate_angle_by_cos a b c (-1)).
    + rewrite acos_m1. f_equal. pose proof PI_RGT_0. field. lra.
    + rewrite En. rewrite Rabs_left by assumption. lra.
    + lra.
    + rewrite En, Ed. rewrite Rabs_left by assumption. ring.
  - rewrite (calculate_angle_by_cos a b c 1).
    + rewrite acos_1. f_equal. pose proof PI_RGT_0. field. lra.
    + rewrite En. rewrite Rabs_right by lra. lra.
    + lra.
    + rewrite En, Ed. rewrite Rabs_right by lra. ring.
Qed.

(** Perpendicular arms: 90 degrees. *)
Lemma calculate_angle_perpendicular (a b c : point) :
  sub2 a b <> (0, 0) -> sub2 c b <> (0, 0) -> dot (sub2 a b) (sub2 c b) = 0 ->
  calculate_angle a b c = Fin 90.
Proof.
  intros Ha Hc Hd.
  pose proof (norm_pos _ Ha). pose proof (norm_pos _ Hc).
  rewrite (calculate_angle_by_cos a b c 0).
  - rewrite acos_0. f_equal. pose proof PI_RGT_0. field. lra.
  - nra.
  - lra.
  - rewrite Hd. ring.
Qed.

Lemma trunc_IZR (n : Z) : trunc (IZR n) = n.
Proof.
  unfold trunc. destruct (Rle_dec 0 (IZR n)).
  - symmetry. apply Int_part_spec. lra.
  - rewrite <- opp_IZR. rewrite <- (Z.opp_involutive n) at 2. f_equal.
    symmetry. apply Int_part_spec. lra.
Qed.


(** ** The rule checkers *)

Ltac unfold_checker :=
  unfold check_squat_rules, check_sitting_rules, run_checker, squat_try_block,
    sitting_try_block, try_except_pass, bind, getitem.

Ltac step_checker :=
  cbn -[calculate_angle f64_ltb f64_gtb py_int back_angle_issue neck_bend_issue
        back_not_straight_issue knee_over_toe_issue Rltb nth_error].

(** Whatever the [try] block does, the checker returns a list. *)
Lemma run_checker_ok (block : M Issues unit) : exists found, run_checker block = Ok found.
Proof.
  unfold run_checker, try_except_pass, bind, get.
  destruct (block []) as [[u | e] s]; simpl; eexists; reflexivity.
Qed.

(** With every joint in place both rules run. *)
Lemma check_squat_rules_present landmarks knee ankle hip shoulder toe :
  present landmarks LEFT_KNEE knee -> present landmarks LEFT_ANKLE ankle ->
  present landmarks LEFT_HIP hip -> present landmarks LEFT_SHOULDER shoulder ->
  present landmarks LEFT_FOOT_INDEX toe ->
  check_squat_rules landmarks = Ok (squat_issues knee hip shoulder toe).
Proof.
  unfold present, squat_issues, knee_rule. intros Hk Ha Hh Hs Ht.
  unfold_checker. rewrite Hk, Ha, Hh, Hs, Ht. step_checker.
  destruct (calculate_angle_fin_or_nan (x shoulder, y shoulder) (x hip, y hip) (x knee, y knee))
    as [[deg ->] | ->];
    destruct (Rltb (x toe) (x knee)); cbn [f64_ltb]; step_checker; try reflexivity;
    destruct (Rltb deg 150); reflexivity.
Qed.

Lemma check_sitting_rules_present landmarks shoulder ear hip :
  present landmarks LEFT_SHOULDER shoulder -> present landmarks LEFT_EAR ear ->
  present landmarks LEFT_HIP hip ->
  check_sitting_rules landmarks = Ok (sitting_issues shoulder ear hip).
Proof.
  unfold present, sitting_issues, neck_rule. intros Hs He Hh.
  unfold_checker. rewrite Hs, He, Hh. step_checker.
  destruct (calculate_angle_fin_or_nan (x shoulder, y shoulder) (x ear, y ear)
              (x shoulder, y shoulder - 1)) as [[neck ->] | ->];
    destruct (calculate_angle_fin_or_nan (x shoulder, y shoulder) (x hip, y hip)
                (x hip, y hip - 1)) as [[back ->] | ->];
    unfold f64_gtb; cbn [f64_ltb f64_abs f64_sub]; step_checker; try reflexivity;
    try (destruct (Rltb 30 neck)); step_checker; try reflexivity;
    try (destruct (Rltb 20 (Rabs (back - 180)))); reflexivity.
Qed.

(** A failure before the first rule: nothing has been appended yet. *)
Lemma check_squat_rules_early_failure (landmarks : PyLandmarks) :
  missing landmarks LEFT_KNEE \/ missing landmarks LEFT_ANKLE \/ missing landmarks LEFT_HIP \/
  missing landmarks LEFT_SHOULDER \/ missing landmarks LEFT_FOOT_INDEX \/
  absent landmarks LEFT_KNEE \/ absent landmarks LEFT_FOOT_INDEX ->
  check_squat_rules landmarks = Ok [].
Proof.
  unfold missing, absent. intros H. unfold_checker.
  destruct (nth_error landmarks LEFT_KNEE) as [knee |]; [| reflexivity].
  destruct (nth_error landmarks LEFT_ANKLE) as [ankle |]; [| reflexivity].
  destruct (nth_error landmarks LEFT_HIP) as [hip |]; [| reflexivity].
  destruct (nth_error landmarks LEFT_SHOULDER) as [shoulder |]; [| reflexivity].
  destruct (nth_error landmarks LEFT_FOOT_INDEX) as [toe |]; [| reflexivity].
  step_checker.
  destruct knee as [knee |]; [| reflexivity].
  destruct toe as [toe |]; [| reflexivity].
  repeat (destruct H as [H | H]; [discriminate H |]); discriminate H.
Qed.

Lemma check_sitting_rules_early_failure (landmarks : PyLandmarks) :
  missing landmarks LEFT_SHOULDER \/ missing landmarks LEFT_EAR \/ missing landmarks LEFT_HIP \/
  absent landmarks LEFT_SHOULDER \/ absent landmarks LEFT_EAR ->
  check_sitting_rules landmarks = Ok [].
Proof.
  unfold missing, absent. intros H. unfold_checker.
  destruct (nth_error landmarks LEFT_SHOULDER) as [shoulder |]; [| reflexivity].
  destruct (nth_error landmarks LEFT_EAR) as [ear |]; [| reflexivity].
  destruct (nth_error landmarks LEFT_HIP) as [hip |]; [| reflexivity].
  step_checker.
  destruct shoulder as [shoulder |]; [| reflexivity].
  destruct ear as [ear |]; [| reflexivity].
  repeat (destruct H as [H | H]; [discriminate H |]); discriminate H.
Qed.

(** A failure after the first rule: what that rule appended stays. *)
Lemma check_squat_rules_late_failure (landmarks : PyLandmarks) (knee toe : Landmark) :
  present landmarks LEFT_KNEE knee -> present landmarks LEFT_FOOT_INDEX toe ->
  ~ missing landmarks LEFT_ANKLE -> ~ missing landmarks LEFT_HIP ->
  ~ missing landmarks LEFT_SHOULDER ->
  absent landmarks LEFT_SHOULDER \/ absent landmarks LEFT_HIP ->
  check_squat_rules landmarks = Ok (knee_rule knee toe).
Proof.
  unfold present, missing, absent, knee_rule. intros Hk Ht Na Nh Ns H.
  unfold_checker. rewrite Hk, Ht.
  destruct (nth_error landmarks LEFT_ANKLE) as [ankle |]; [| contradiction].
  destruct (nth_error landmarks LEFT_HIP) as [hip |]; [| contradiction].
  destruct (nth_error landmarks LEFT_SHOULDER) as [shoulder |]; [| contradiction].
  step_checker.
  destruct shoulder as [shoulder |]; [| destruct (Rltb (x toe) (x knee)); reflexivity].
  destruct hip as [hip |]; [| destruct (Rltb (x toe) (x knee)); reflexivity].
  destruct H as [H | H]; discriminate H.
Qed.

Lemma check_sitting_rules_late_failure (landmarks : PyLandmarks) (shoulder ear : Landmark) :
  present landmarks LEFT_SHOULDER shoulder -> present landmarks LEFT_EAR ear ->
  absent landmarks LEFT_HIP ->
  check_sitting_rules landmarks = Ok (neck_rule shoulder ear).
Proof.
  unfold present, absent, neck_rule. intros Hs He Hh.
  unfold_checker. rewrite Hs, He, Hh. step_checker.
  destruct (calculate_angle_fin_or_nan (x shoulder, y shoulder) (x ear, y ear)
              (x shoulder, y shoulder - 1)) as [[neck ->] | ->];
    unfold f64_gtb; cbn [f64_ltb]; step_checker; try reflexivity.
  destruct (Rltb 30 neck); reflexivity.
Qed.

(** C1, as the code has it.  No exception escapes either rule checker,
    whatever the landmark sequence.  The returned list is empty when the
    failure comes before the first rule has run: a required index is past
    the end of the sequence, or a joint the first rule reads is [None]
    (knee or toe for squat, shoulder or ear for sitting).  A failure that
    comes later keeps what the first rule appended: with the shoulder or
    the hip [None] the squat checker returns the outcome of the knee rule,
    and with the hip [None] the sitting checker returns the outcome of the
    neck rule. *)
Theorem checkers_absorb_failures (landmarks : PyLandmarks) :
  (exists found, check_squat_rules landmarks = Ok found) /\
  (exists found, check_sitting_rules landmarks = Ok found) /\
  (missing landmarks LEFT_KNEE \/ missing landmarks LEFT_ANKLE \/ missing landmarks LEFT_HIP \/
   missing landmarks LEFT_SHOULDER \/ missing landmarks LEFT_FOOT_INDEX \/
   absent landmarks LEFT_KNEE \/ absent landmarks LEFT_FOOT_INDEX ->
   check_squat_rules landmarks = Ok []) /\
  (missing landmarks LEFT_SHOULDER \/ missing landmarks LEFT_EAR \/ missing landmarks LEFT_HIP \/
   absent landmarks LEFT_SHOULDER \/ absent landmarks LEFT_EAR ->
   check_sitting_rules landmarks = Ok []) /\
  (forall knee toe,
     present landmarks LEFT_KNEE knee -> present landmarks LEFT_FOOT_INDEX toe ->
     ~ missing landmarks LEFT_ANKLE -> ~ missing landmarks LEFT_HIP ->
     ~ missing landmarks LEFT_SHOULDER ->
     absent landmarks LEFT_SHOULDER \/ absent landmarks LEFT_HIP ->
     check_squat_rules landmarks = Ok (knee_rule knee toe)) /\
  (forall shoulder ear,
     present landmarks LEFT_SHOULDER shoulder -> present landmarks LEFT_EAR ear ->
     absent landmarks LEFT_HIP ->
     check_sitting_rules landmarks = Ok (neck_rule shoulder ear)).
Proof.
  split; [apply run_checker_ok |].
  split; [apply run_checker_ok |].
  split; [apply check_squat_rules_early_failure |].
  split; [apply check_sitting_rules_early_failure |].
  split.
  - apply check_squat_rules_late_failure.
  - apply check_sitting_rules_late_failure.
Qed.

Lemma checkers_absorb_failures_witness :
  check_squat_rules [] = Ok [] /\ check_sitting_rules [] = Ok [].
Proof.
  destruct (checkers_absorb_failures []) as [_ [_ [Hsquat [Hsitting _]]]].
  split.
  - apply Hsquat. left. reflexivity.
  - apply Hsitting. left. reflexivity.
Defined.

(** C1, as the claim has it, fails: in this sequence the shoulder is
    absent, yet the squat checker returns the knee issue, not the empty
    list. *)
Lemma shoulder_absent_keeps_knee_issue :
  absent shoulder_absent_pose LEFT_SHOULDER /\
  check_squat_rules shoulder_absent_pose = Ok [knee_over_toe_issue] /\
  check_squat_rules shoulder_absent_pose <> Ok [].
Proof.
  assert (E : check_squat_rules shoulder_absent_pose = Ok [knee_over_toe_issue]).
  { unfold_checker. cbn [shoulder_absent_pose pose_of map seq nth_error LEFT_KNEE LEFT_ANKLE
      LEFT_HIP LEFT_SHOULDER LEFT_FOOT_INDEX Nat.eqb]. step_checker.
    rewrite Rltb_true by lra. reflexivity. }
  split; [reflexivity |]. split; [exact E |]. rewrite E. discriminate.
Qed.

Lemma back_issue_not_knee_issue (n : Z) : back_angle_issue n <> knee_over_toe_issue.
Proof. unfold back_angle_issue, knee_over_toe_issue. simpl. discriminate. Qed.

Lemma In_squat_knee_issue (knee hip shoulder toe : Landmark) :
  In knee_over_toe_issue (squat_issues knee hip shoulder toe) <-> x knee > x toe.
Proof.
  unfold squat_issues, knee_rule. rewrite in_app_iff. split.
  - intros [H | H].
    + destruct (Rltb (x toe) (x knee)) eqn:E; [| contradiction].
      apply Rltb_spec in E. lra.
    + exfalso. destruct (calculate_angle _ _ _) as [deg | | |]; try contradiction.
      destruct (Rltb deg 150); [| contradiction].
      destruct H as [H | []]. exact (back_issue_not_knee_issue _ H).
  - intros H. left. rewrite Rltb_true by lra. left. reflexivity.
Qed.

Lemma In_squat_back_issue (knee hip shoulder toe : Landmark) (n : Z) :
  In (back_angle_issue n) (squat_issues knee hip shoulder toe) ->
  exists deg, calculate_angle (x shoulder, y shoulder) (x hip, y hip) (x knee, y knee) = Fin deg /\
    deg < 150.
Proof.
  unfold squat_issues, knee_rule. rewrite in_app_iff. intros [H | H].
  - destruct (Rltb (x toe) (x knee)); [| contradiction].
    destruct H as [H | []]. symmetry in H. destruct (back_issue_not_knee_issue _ H).
  - destruct (calculate_angle _ _ _) as [deg | | |]; try contradiction.
    destruct (Rltb deg 150) eqn:E; [| contradiction].
    exists deg. split; [reflexivity |]. apply Rltb_spec. exact E.
Qed.

(** C5. When the five joints of the squat rules are in the sequence,
    [check_squat_rules] returns a list that contains "Left knee over toe"
    if and only if the x of the knee is strictly greater than the x of the
    toe. *)
Theorem knee_over_toe_rule landmarks knee ankle hip shoulder toe :
  present landmarks LEFT_KNEE knee -> present landmarks LEFT_ANKLE ankle ->
  present landmarks LEFT_HIP hip -> present landmarks LEFT_SHOULDER shoulder ->
  present landmarks LEFT_FOOT_INDEX toe ->
  exists found, check_squat_rules landmarks = Ok found /\
    (In "Left knee over toe"%string found <-> x knee > x toe).
Proof.
  intros Hk Ha Hh Hs Ht.
  exists (squat_issues knee hip shoulder toe). split.
  - exact (check_squat_rules_present landmarks knee ankle hip shoulder toe Hk Ha Hh Hs Ht).
  - apply In_squat_knee_issue.
Qed.

Lemma knee_over_toe_rule_witness :
  exists found,
    check_squat_rules
      (squat_pose (at_xy 0.5 0.2) (at_xy 0.5 0.5) (at_xy 0.6 0.7) (at_xy 0.5 0.9) (at_xy 0.5 0.95))
    = Ok found /\ In "Left knee over toe"%string found.
Proof.
  destruct (knee_over_toe_rule
    (squat_pose (at_xy 0.5 0.2) (at_xy 0.5 0.5) (at_xy 0.6 0.7) (at_xy 0.5 0.9) (at_xy 0.5 0.95))
    (at_xy 0.6 0.7) (at_xy 0.5 0.9) (at_xy 0.5 0.5) (at_xy 0.5 0.2) (at_xy 0.5 0.95)
    eq_refl eq_refl eq_refl eq_refl eq_refl) as [found [E Hiff]].
  exists found. split; [exact E |]. apply Hiff. simpl. lra.
Defined.

(** The other half of the example: with the knee at x = 0.4 and the toe at
    x = 0.5 the issue is not reported. *)
Example knee_behind_toe :
  forall found,
    check_squat_rules
      (squat_pose (at_xy 0.5 0.2) (at_xy 0.5 0.5) (at_xy 0.4 0.7) (at_xy 0.5 0.9) (at_xy 0.5 0.95))
    = Ok found -> ~ In "Left knee over toe"%string found.
Proof.
  intros found E Hin.
  rewrite (check_squat_rules_present _ (at_xy 0.4 0.7) (at_xy 0.5 0.9) (at_xy 0.5 0.5)
             (at_xy 0.5 0.2) (at_xy 0.5 0.95)) in E by reflexivity.
  injection E as <-. apply In_squat_knee_issue in Hin. simpl in Hin. lra.
Qed.

(** C6. When the five joints of the squat rules are in the sequence, the
    list returned by [check_squat_rules] holds the issue
    "Back angle too small: n°", n the integer part of the angle at the hip
    between shoulder and knee, when that angle is below 150, and no such
    issue for any n otherwise.  With shoulder (0,0), hip (0,1), knee (0,2)
    the angle is 180 and there is no such issue; with the knee at (1,1) the
    angle is 90 and the issue "Back angle too small: 90°" is in the list. *)
Theorem back_angle_rule landmarks knee ankle hip shoulder toe :
  present landmarks LEFT_KNEE knee -> present landmarks LEFT_ANKLE ankle ->
  present landmarks LEFT_HIP hip -> present landmarks LEFT_SHOULDER shoulder ->
  present landmarks LEFT_FOOT_INDEX toe ->
  exists found, check_squat_rules landmarks = Ok found /\
    let back_angle := calculate_angle (x shoulder, y shoulder) (x hip, y hip) (x knee, y knee) in
    (f64_ltb back_angle (Fin 150) = true ->
     exists n, py_int back_angle = Ok n /\ In (back_angle_issue n) found) /\
    (f64_ltb back_angle (Fin 150) = false -> forall n, ~ In (back_angle_issue n) found) /\
    (x shoulder = 0 -> y shoulder = 0 -> x hip = 0 -> y hip = 1 -> x knee = 0 -> y knee = 2 ->
     back_angle = Fin 180 /\ forall n, ~ In (back_angle_issue n) found) /\
    (x shoulder = 0 -> y shoulder = 0 -> x hip = 0 -> y hip = 1 -> x knee = 1 -> y knee = 1 ->
     back_angle = Fin 90 /\ In "Back angle too small: 90°"%string found).
Proof.
  intros Hk Ha Hh Hs Ht.
  exists (squat_issues knee hip shoulder toe). split.
  { exact (check_squat_rules_present landmarks knee ankle hip shoulder toe Hk Ha Hh Hs Ht). }
  cbv zeta.
  assert (Hyes : forall deg,
    calculate_angle (x shoulder, y shoulder) (x hip, y hip) (x knee, y knee) = Fin deg ->
    deg < 150 -> In (back_angle_issue (trunc deg)) (squat_issues knee hip shoulder toe)).
  { intros deg E Hlt. unfold squat_issues. rewrite E, (Rltb_true deg 150) by assumption.
    apply in_or_app. right. left. reflexivity. }
  assert (Hno : f64_ltb (calculate_angle (x shoulder, y shoulder) (x hip, y hip) (x knee, y knee))
                  (Fin 150) = false ->
                forall n, ~ In (back_angle_issue n) (squat_issues knee hip shoulder toe)).
  { intros Hf n Hin. apply In_squat_back_issue in Hin. destruct Hin as [deg [E Hlt]].
    rewrite E in Hf. simpl in Hf. rewrite Rltb_true in Hf by assumption. discriminate. }
  split; [| split; [exact Hno | split]].
  - intros Hlt.
    destruct (calculate_angle_fin_or_nan (x shoulder, y shoulder) (x hip, y hip) (x knee, y knee))
      as [[deg E] | E]; rewrite E in Hlt; simpl in Hlt; try discriminate.
    exists (trunc deg). split; [rewrite E; reflexivity |].
    apply Hyes; [exact E | apply Rltb_spec; exact Hlt].
  - intros E1 E2 E3 E4 E5 E6. rewrite E1, E2, E3, E4, E5, E6 in *.
    assert (E : calculate_angle (0, 0) (0, 1) (0, 2) = Fin 180).
    { apply calculate_angle_vertical; simpl; lra. }
    split; [exact E |]. apply Hno. rewrite E. simpl. apply Rltb_false. lra.
  - intros E1 E2 E3 E4 E5 E6. rewrite E1, E2, E3, E4, E5, E6 in *.
    assert (E : calculate_angle (0, 0) (0, 1) (1, 1) = Fin 90).
    { apply calculate_angle_perpendicular; unfold sub2, dot; simpl;
        try (intros H; inversion H; lra); ring. }
    split; [exact E |].
    replace "Back angle too small: 90°"%string with (back_angle_issue (trunc 90))
      by (rewrite (trunc_IZR 90); reflexivity).
    apply Hyes; [exact E | lra].
Qed.

Lemma back_angle_rule_witness :
  exists found,
    check_squat_rules
      (squat_pose (at_xy 0 0) (at_xy 0 1) (at_xy 1 1) (at_xy 1 2) (at_xy 1.2 2)) = Ok found /\
    In "Back angle too small: 90°"%string found.
Proof.
  destruct (back_angle_rule
    (squat_pose (at_xy 0 0) (at_xy 0 1) (at_xy 1 1) (at_xy 1 2) (at_xy 1.2 2))
    (at_xy 1 1) (at_xy 1 2) (at_xy 0 1) (at_xy 0 0) (at_xy 1.2 2)
    eq_refl eq_refl eq_refl eq_refl eq_refl) as [found [E [_ [_ [_ Hright]]]]].
  exists found. split; [exact E |].
  apply Hright; reflexivity.
Defined.

(** The straight-back example evaluated in full: no issue at all. *)
Example squat_straight_back :
  check_squat_rules (squat_pose (at_xy 0 0) (at_xy 0 1) (at_xy 0 2) (at_xy 0 3) (at_xy 0.1 3))
  = Ok [].
Proof.
  rewrite (check_squat_rules_present _ (at_xy 0 2) (at_xy 0 3) (at_xy 0 1) (at_xy 0 0) (at_xy 0.1 3))
    by reflexivity.
  unfold squat_issues, knee_rule. simpl x. simpl y.
  rewrite Rltb_false by lra.
  replace (calculate_angle (0, 0) (0, 1) (0, 2)) with (Fin 180)
    by (symmetry; apply calculate_angle_vertical; simpl; lra).
  rewrite Rltb_false by lra. reflexivity.
Qed.

(** The neck angle is taken at the ear, between the shoulder and the point
    one unit above the shoulder.  With the ear straight above the shoulder
    by less than one unit the two arms point in opposite directions. *)
Lemma neck_angle_upright (sx sy d : R) :
  0 < d < 1 -> calculate_angle (sx, sy) (sx, sy - d) (sx, sy - 1) = Fin 180.
Proof.
  intros Hd. apply calculate_angle_vertical; simpl; try reflexivity. nra.
Qed.

Lemma upright_sitting_angles :
  calculate_angle (0.5, 0.5) (0.5, 0.3) (0.5, 0.5 - 1) = Fin 180 /\
  calculate_angle (0.5, 0.5) (0.5, 0.8) (0.5, 0.8 - 1) = Fin 0.
Proof. split; apply calculate_angle_vertical; simpl; lra. Qed.

(** C4, the failing input.  The ear is straight above the shoulder, yet
    the neck angle the sitting checker computes is 180, not 0, and the
    issue "Neck bend too large: 180°" is reported. *)
Theorem upright_neck_is_flagged :
  present upright_sitting_pose LEFT_SHOULDER (at_xy 0.5 0.5) /\
  present upright_sitting_pose LEFT_EAR (at_xy 0.5 0.3) /\
  calculate_angle (0.5, 0.5) (0.5, 0.3) (0.5, 0.5 - 1) = Fin 180 /\
  check_sitting_rules upright_sitting_pose =
    Ok ["Neck bend too large: 180°"%string; "Back not straight: 0°"%string].
Proof.
  destruct upright_sitting_angles as [Eneck Eback].
  split; [reflexivity |]. split; [reflexivity |]. split; [exact Eneck |].
  rewrite (check_sitting_rules_present _ (at_xy 0.5 0.5) (at_xy 0.5 0.3) (at_xy 0.5 0.8))
    by reflexivity.
  unfold sitting_issues, neck_rule. simpl x. simpl y. rewrite Eneck, Eback.
  rewrite (Rltb_true 30 180) by lra.
  rewrite (Rltb_true 20 (Rabs (0 - 180))) by (rewrite Rabs_left; lra).
  rewrite (trunc_IZR 180), (trunc_IZR 0). reflexivity.
Qed.




(** ** The endpoints *)

Ltac Zify.zify_post_hook ::= Z.div_mod_to_equations.

Lemma sampled_every_fifth (n : nat) :
  filter (fun i => Nat.eqb (i mod frame_skip) 0) (seq 0 n) =
  map (fun k => (k * frame_skip)%nat) (seq 0 ((n + 4) / 5)).
Proof.
  unfold frame_skip. induction n as [| n IH].
  - reflexivity.
  - rewrite seq_S, filter_app, IH. cbn [filter Nat.add].
    destruct (Nat.eqb (n mod 5) 0) eqn:E.
    + apply Nat.eqb_eq in E.
      assert (Ed : ((S n + 4) / 5 = S ((n + 4) / 5))%nat) by lia. cbn [Nat.add] in Ed. rewrite Ed.
      rewrite seq_S, map_app. cbn [map Nat.add]. f_equal. f_equal. lia.
    + apply Nat.eqb_neq in E. rewrite app_nil_r.
      assert (Ed : ((S n + 4) / 5 = (n + 4) / 5)%nat) by lia. cbn [Nat.add] in Ed. rewrite Ed. reflexivity.
Qed.

Lemma Forall2_under_Forall {A B : Type} (P : A -> Prop) (R Q : A -> B -> Prop)
    (l : list A) (l' : list B) :
  Forall P l -> Forall2 R l l' -> (forall a b, P a -> R a b -> Q a b) -> Forall2 Q l l'.
Proof.
  intros HP HR Himp. induction HR as [| a b l l' Hab _ IH]; constructor.
  - apply Himp; [| exact Hab]. inversion HP; assumption.
  - apply IH. inversion HP; assumption.
Qed.

Lemma Forall2_Forall_r {A B : Type} (R : A -> B -> Prop) (Q : B -> Prop)
    (l : list A) (l' : list B) :
  Forall2 R l l' -> (forall a b, R a b -> Q b) -> Forall Q l'.
Proof.
  intros HR Himp. induction HR as [| a b l l' Hab _ IH]; constructor.
  - exact (Himp a b Hab).
  - exact IH.
Qed.

Lemma fresh_path_above (fs : FS) : Forall (fun entry => (fst entry < fresh_path fs)%nat) fs.
Proof.
  unfold fresh_path.
  assert (H : Forall (fun k => (k <= list_max (map fst fs))%nat) (map fst fs)).
  { apply list_max_le. apply Nat.le_refl. }
  rewrite Forall_map in H. eapply Forall_impl; [| exact H].
  intros entry Hle. cbv beta in *. unfold Path in *. lia.
Qed.

Lemma lookup_new_file (p : Path) (content : Bytes) (fs : FS) :
  lookup p ((p, content) :: fs) = Some content.
Proof. simpl. rewrite Nat.eqb_refl. reflexivity. Qed.

Lemma unlink_other (p : Path) (fs : FS) :
  Forall (fun entry => (fst entry < p)%nat) fs -> unlink p fs = fs.
Proof.
  unfold unlink. induction 1 as [| entry rest Hlt _ IH]; [reflexivity |].
  simpl. destruct (Nat.eqb_spec p (fst entry)) as [E | _].
  - rewrite E in Hlt. apply Nat.lt_irrefl in Hlt. contradiction.
  - simpl. rewrite IH. reflexivity.
Qed.

Lemma lookup_other (p : Path) (fs : FS) :
  Forall (fun entry => (fst entry < p)%nat) fs -> lookup p fs = None.
Proof.
  induction 1 as [| [q content] rest Hlt _ IH]; [reflexivity |].
  cbn [lookup]. cbn [fst] in Hlt. destruct (Nat.eqb_spec p q) as [E | _].
  - rewrite E in Hlt. apply Nat.lt_irrefl in Hlt. contradiction.
  - exact IH.
Qed.

Lemma unlink_new_file (content : Bytes) (fs : FS) :
  unlink (fresh_path fs) ((fresh_path fs, content) :: fs) = fs.
Proof.
  set (p := fresh_path fs).
  unfold unlink. cbn [filter fst]. rewrite Nat.eqb_refl. cbn [negb].
  apply (unlink_other p fs). apply fresh_path_above.
Qed.

Lemma os_remove_new_file (content : Bytes) (fs : FS) :
  os_remove (fresh_path fs) ((fresh_path fs, content) :: fs) = (Ok tt, fs).
Proof.
  unfold os_remove, exists_path. rewrite lookup_new_file, unlink_new_file. reflexivity.
Qed.

(** What the shared block returns. *)
Lemma rules_and_keypoints_ok (activity : string) (detected : option (list Landmark)) :
  exists found,
    rules_and_keypoints activity detected =
    Ok (found, match detected with Some landmarks => map keypoint_of landmarks | None => [] end) /\
    (detected = None -> found = []) /\
    (activity <> "squat"%string -> activity <> "sitting"%string -> found = []) /\
    (detected = Some [] -> found = []).
Proof.
  destruct detected as [landmarks |]; simpl.
  - destruct (String.eqb_spec activity "squat") as [Esq | Nsq].
    + destruct (run_checker_ok (squat_try_block (map Some landmarks))) as [found E].
      fold (check_squat_rules (map Some landmarks)) in E.
      exists found. rewrite E. repeat split; try congruence.
      intros D. injection D as ->. simpl in E.
      rewrite check_squat_rules_early_failure in E by (left; reflexivity). congruence.
    + destruct (String.eqb_spec activity "sitting") as [Esi | Nsi].
      * destruct (run_checker_ok (sitting_try_block (map Some landmarks))) as [found E].
        fold (check_sitting_rules (map Some landmarks)) in E.
        exists found. rewrite E. repeat split; try congruence.
        intros D. injection D as ->. simpl in E.
        rewrite check_sitting_rules_early_failure in E by (left; reflexivity). congruence.
      * exists []. repeat split; reflexivity.
  - exists []. repeat split; reflexivity.
Qed.

Section EndpointProperties.

Context {Image PoseState : Type}.
Variable decode_image : Bytes -> option Image.
Variable decode_video : Bytes -> option (list Image).
Variable bgr2rgb : Image -> Image.
Variable Pose : bool -> PoseState.
Variable pose_process : PoseState -> Image -> PoseState * option (list Landmark).

Lemma video_loop_spec (activity : string) (to_read : list Image) :
  forall pose frame_idx processed_idx frame_results,
  exists out,
    video_loop bgr2rgb pose_process activity true to_read pose frame_idx processed_idx
      frame_results = Ok (frame_results ++ out) /\
    map frame out =
      filter (fun i => Nat.eqb (i mod frame_skip) 0) (seq frame_idx (List.length to_read)) /\
    Forall2 (built_from activity) (pose_answers bgr2rgb pose_process to_read pose frame_idx) out.
Proof.
  induction to_read as [| image rest IH]; intros pose frame_idx processed_idx frame_results.
  - exists []. simpl. rewrite app_nil_r. repeat split. constructor.
  - cbn [video_loop pose_answers List.length seq filter cv2_cvtColor].
    destruct (Nat.eqb (frame_idx mod frame_skip) 0) eqn:E; cbn [negb].
    + destruct (pose_process pose (bgr2rgb image)) as [pose' results].
      destruct (rules_and_keypoints_ok activity results) as [found [Eblock _]].
      rewrite Eblock.
      destruct (IH pose' (frame_idx + 1)%nat (processed_idx + 1)%nat
                  (frame_results ++ [mkFrameResult frame_idx found
                     (match results with Some l => map keypoint_of l | None => [] end)]))
        as [out [Eloop [Eidx Hall]]].
      eexists (_ :: out). rewrite Eloop, <- app_assoc. split; [reflexivity |].
      split.
      * cbn [map frame]. f_equal. rewrite Eidx. rewrite Nat.add_1_r. reflexivity.
      * constructor; [| exact Hall]. split; [reflexivity | exact Eblock].
    + destruct (IH pose (frame_idx + 1)%nat processed_idx frame_results)
        as [out [Eloop [Eidx Hall]]].
      exists out. split; [exact Eloop |]. split; [| exact Hall].
      rewrite Eidx, Nat.add_1_r. reflexivity.
Qed.

Lemma analyze_video_spec (file : Bytes) (activity : string) (fs : FS) :
  exists out,
    analyze_video decode_video bgr2rgb Pose pose_process file activity fs
      = (Ok (mkVideoResult out), fs) /\
    map frame out =
      filter (fun i => Nat.eqb (i mod frame_skip) 0)
        (seq 0 (List.length (frames_of decode_video file))) /\
    Forall2 (built_from activity)
      (pose_answers bgr2rgb pose_process (frames_of decode_video file) (Pose false) 0) out.
Proof.
  unfold analyze_video, bind, NamedTemporaryFile, cv2_VideoCapture, frames_of, lift.
  rewrite lookup_new_file.
  destruct (decode_video file) as [images |]; cbn [isOpened pending].
  - destruct (video_loop_spec activity images (Pose false) 0%nat 0%nat [])
      as [out [Eloop [Eidx Hall]]].
    exists out. rewrite Eloop. cbn [app]. rewrite os_remove_new_file.
    split; [reflexivity |]. split; assumption.
  - exists []. cbn [video_loop]. rewrite os_remove_new_file.
    split; [reflexivity |]. split; [reflexivity | constructor].
Qed.

Lemma analyze_frame_spec (file : Bytes) (activity : string) (fs : FS) (image : Image) :
  decode_image file = Some image ->
  exists found points,
    analyze_frame decode_image bgr2rgb Pose pose_process file activity fs
      = (Ok (mkImageResult found points), fs) /\
    rules_and_keypoints activity (snd (pose_process (Pose true) (bgr2rgb image)))
      = Ok (found, points).
Proof.
  intros Hdec.
  unfold analyze_frame, bind, NamedTemporaryFile, cv2_imread, lift.
  rewrite lookup_new_file, Hdec. cbn [cv2_cvtColor].
  destruct (rules_and_keypoints_ok activity (snd (pose_process (Pose true) (bgr2rgb image))))
    as [found [Eblock _]].
  eexists found, _. split; [| exact Eblock].
  rewrite Eblock. cbn [fst snd]. rewrite os_remove_new_file. reflexivity.
Qed.

Lemma analyze_frame_undecodable (file : Bytes) (activity : string) (fs : FS) :
  decode_image file = None ->
  analyze_frame decode_image bgr2rgb Pose pose_process file activity fs
    = (Raise CvError, (fresh_path fs, file) :: fs).
Proof.
  intros Hdec.
  unfold analyze_frame, bind, NamedTemporaryFile, cv2_imread, lift.
  rewrite lookup_new_file, Hdec. reflexivity.
Qed.

Lemma pose_answers_contract (to_read : list Image) :
  (forall pose image pose' landmarks,
     pose_process pose image = (pose', Some landmarks) -> List.length landmarks = 33%nat) ->
  forall pose frame_idx,
    Forall (fun answer => forall landmarks,
              snd answer = Some landmarks -> List.length landmarks = 33%nat)
      (pose_answers bgr2rgb pose_process to_read pose frame_idx).
Proof.
  intros Hschema. induction to_read as [| image rest IH]; intros pose frame_idx.
  - constructor.
  - cbn [pose_answers]. destruct (Nat.eqb (frame_idx mod frame_skip) 0).
    + destruct (pose_process pose (bgr2rgb image)) as [pose' results] eqn:E.
      constructor; [| apply IH].
      cbn [snd]. intros landmarks ->. exact (Hschema _ _ _ _ E).
    + apply IH.
Qed.

(** C2. [analyze_video] returns for every upload, and the frame indices
    of its output are exactly the indices below the number of decoded
    frames that are divisible by the stride 5, in increasing order: the
    k-th entry has index 5 * k, so the indices start at 0 and grow by the
    stride, and no skipped frame appears.  For 12 frames the output is
    frames 0, 5 and 10. *)
Theorem analyze_video_sampling (file : Bytes) (activity : string) (fs : FS) :
  exists out,
    analyze_video decode_video bgr2rgb Pose pose_process file activity fs
      = (Ok (mkVideoResult out), fs) /\
    let n := List.length (frames_of decode_video file) in
    map frame out = filter (fun i => Nat.eqb (i mod frame_skip) 0) (seq 0 n) /\
    map frame out = map (fun k => (k * frame_skip)%nat) (seq 0 ((n + 4) / 5)) /\
    (n = 12%nat -> map frame out = [0; 5; 10]%nat).
Proof.
  destruct (analyze_video_spec file activity fs) as [out [Erun [Eidx _]]].
  exists out. split; [exact Erun |]. cbv zeta.
  split; [exact Eidx |].
  split; [rewrite Eidx; apply sampled_every_fifth |].
  intros E12. rewrite Eidx, E12. reflexivity.
Qed.

(** C7. Provided the pose model keeps its schema (a detected body has 33
    landmarks), in every frame result of [analyze_video] and in the result
    of [analyze_frame] the keypoints are empty exactly when the pose
    model found no body in that frame or image, and empty keypoints come
    with empty issues. *)
Theorem keypoints_empty_iff_no_body :
  (forall pose image pose' landmarks,
     pose_process pose image = (pose', Some landmarks) -> List.length landmarks = 33%nat) ->
  (forall file activity fs,
     exists out,
       analyze_video decode_video bgr2rgb Pose pose_process file activity fs
         = (Ok (mkVideoResult out), fs) /\
       Forall2 (fun answer fr =>
                  frame fr = fst answer /\
                  (frame_keypoints fr = [] <-> snd answer = None) /\
                  (frame_keypoints fr = [] -> frame_issues fr = []))
         (pose_answers bgr2rgb pose_process (frames_of decode_video file) (Pose false) 0) out) /\
  (forall file activity fs image,
     decode_image file = Some image ->
     exists found points,
       analyze_frame decode_image bgr2rgb Pose pose_process file activity fs
         = (Ok (mkImageResult found points), fs) /\
       (points = [] <-> snd (pose_process (Pose true) (bgr2rgb image)) = None) /\
       (points = [] -> found = [])).
Proof.
  intros Hschema.
  assert (Hblock : forall activity detected found points,
    (forall landmarks, detected = Some landmarks -> List.length landmarks = 33%nat) ->
    rules_and_keypoints activity detected = Ok (found, points) ->
    (points = [] <-> detected = None) /\ (points = [] -> found = [])).
  { intros activity detected found points Hlen Hrun.
    destruct (rules_and_keypoints_ok activity detected) as [found' [E [Hnone _]]].
    rewrite E in Hrun. injection Hrun as -> <-.
    destruct detected as [landmarks |].
    - specialize (Hlen landmarks eq_refl).
      destruct landmarks as [| lm rest]; [discriminate Hlen |].
      split; [split |]; discriminate.
    - split; [split; reflexivity |]. intros _. apply Hnone. reflexivity. }
  split.
  - intros file activity fs.
    destruct (analyze_video_spec file activity fs) as [out [Erun [_ Hall]]].
    exists out. split; [exact Erun |].
    pose proof (pose_answers_contract (frames_of decode_video file) Hschema (Pose false) 0%nat)
      as Hlen.
    apply (Forall2_under_Forall _ _ _ _ _ Hlen Hall).
    intros answer fr Hans [Hidx Hbuilt].
    split; [exact Hidx |]. exact (Hblock _ _ _ _ Hans Hbuilt).
  - intros file activity fs image Hdec.
    destruct (analyze_frame_spec file activity fs image Hdec) as [found [points [Erun Hbuilt]]].
    exists found, points. split; [exact Erun |].
    apply (Hblock activity _ found points); [| exact Hbuilt].
    intros landmarks Hsnd.
    destruct (pose_process (Pose true) (bgr2rgb image)) as [pose' results] eqn:E.
    cbn [snd] in Hsnd. subst results. exact (Hschema _ _ _ _ E).
Qed.

(** C8. With an activity that is neither squat nor sitting, both endpoints
    return without raising and report no issue: [analyze_video] for every
    upload and every frame result, [analyze_frame] for every upload that
    decodes to an image. *)
Theorem unknown_activity_no_issues (activity : string) :
  activity <> "squat"%string -> activity <> "sitting"%string ->
  (forall file fs,
     exists out,
       analyze_video decode_video bgr2rgb Pose pose_process file activity fs
         = (Ok (mkVideoResult out), fs) /\
       Forall (fun fr => frame_issues fr = []) out) /\
  (forall file fs image,
     decode_image file = Some image ->
     exists points,
       analyze_frame decode_image bgr2rgb Pose pose_process file activity fs
         = (Ok (mkImageResult [] points), fs)).
Proof.
  intros Nsq Nsi.
  assert (Hblock : forall detected found points,
    rules_and_keypoints activity detected = Ok (found, points) -> found = []).
  { intros detected found points Hrun.
    destruct (rules_and_keypoints_ok activity detected) as [found' [E [_ [Hunknown _]]]].
    rewrite E in Hrun. injection Hrun as -> _. apply Hunknown; assumption. }
  split.
  - intros file fs.
    destruct (analyze_video_spec file activity fs) as [out [Erun [_ Hall]]].
    exists out. split; [exact Erun |].
    apply (Forall2_Forall_r _ _ _ _ Hall).
    intros answer fr [_ Hbuilt]. exact (Hblock _ _ _ Hbuilt).
  - intros file fs image Hdec.
    destruct (analyze_frame_spec file activity fs image Hdec) as [found [points [Erun Hbuilt]]].
    exists points. rewrite Erun. rewrite (Hblock _ _ _ Hbuilt). reflexivity.
Qed.

(** C9, the failing path.  When the upload is no image, [analyze_frame]
    raises from [cv2.cvtColor] and the temporary file it has written is
    still there: [os.remove] is only reached on the success path. *)
Theorem analyze_frame_leaks_temp_file (file : Bytes) (activity : string) (fs : FS) :
  decode_image file = None ->
  exists temp_path leftover,
    analyze_frame decode_image bgr2rgb Pose pose_process file activity fs
      = (Raise CvError, leftover) /\
    lookup temp_path fs = None /\
    lookup temp_path leftover = Some file.
Proof.
  intros Hdec. exists (fresh_path fs), ((fresh_path fs, file) :: fs).
  split; [apply analyze_frame_undecodable; exact Hdec |].
  split; [| apply lookup_new_file].
  apply lookup_other. apply fresh_path_above.
Qed.

End EndpointProperties.

(** ** The endpoints on the stand-ins *)

Lemma analyze_video_sampling_witness :
  exists out,
    analyze_video fake_decode_video fake_bgr2rgb fake_Pose fake_pose_process (upload 12) "squat" []
      = (Ok (mkVideoResult out), []) /\
    map frame out = [0; 5; 10]%nat.
Proof.
  destruct (analyze_video_sampling fake_decode_video fake_bgr2rgb fake_Pose fake_pose_process
              (upload 12) "squat" []) as [out [E [_ [_ H12]]]].
  exists out. split; [exact E |]. apply H12. reflexivity.
Defined.

Lemma fake_pose_schema (pose : unit) (image : nat) (pose' : unit) (landmarks : list Landmark) :
  fake_pose_process pose image = (pose', Some landmarks) -> List.length landmarks = 33%nat.
Proof.
  unfold fake_pose_process. destruct (Nat.even image); intros H; inversion H. reflexivity.
Qed.

Lemma keypoints_empty_iff_no_body_witness :
  exists found points,
    analyze_frame fake_decode_image fake_bgr2rgb fake_Pose fake_pose_process (upload 3) "squat" []
      = (Ok (mkImageResult found points), []) /\
    (points = [] <-> snd (fake_pose_process (fake_Pose true) (fake_bgr2rgb 3)) = None) /\
    (points = [] -> found = []).
Proof.
  destruct (keypoints_empty_iff_no_body fake_decode_image fake_decode_video fake_bgr2rgb
              fake_Pose fake_pose_process fake_pose_schema) as [_ Hframe].
  exact (Hframe (upload 3) "squat"%string [] 3%nat eq_refl).
Defined.

Lemma unknown_activity_no_issues_witness :
  exists points,
    analyze_frame fake_decode_image fake_bgr2rgb fake_Pose fake_pose_process (upload 2) "yoga" []
      = (Ok (mkImageResult [] points), []).
Proof.
  assert (Nsq : "yoga"%string <> "squat"%string) by discriminate.
  assert (Nsi : "yoga"%string <> "sitting"%string) by discriminate.
  destruct (unknown_activity_no_issues fake_decode_image fake_decode_video fake_bgr2rgb
              fake_Pose fake_pose_process "yoga" Nsq Nsi) as [_ Hframe].
  exact (Hframe (upload 2) [] 2%nat eq_refl).
Defined.

Lemma analyze_frame_leaks_temp_file_witness :
  exists temp_path leftover,
    analyze_frame fake_decode_image fake_bgr2rgb fake_Pose fake_pose_process (upload 0) "squat" []
      = (Raise CvError, leftover) /\
    lookup temp_path [] = None /\
    lookup temp_path leftover = Some (upload 0).
Proof.
  exact (analyze_frame_leaks_temp_file fake_decode_image fake_bgr2rgb fake_Pose fake_pose_process
           (upload 0) "squat" [] eq_refl).
Defined.

(** * Further properties of the code *)

(** ** The angle function *)

Lemma degrees_acos_range (q : R) : 0 <= acos q * (180 / PI) <= 180.
Proof.
  pose proof (acos_bound q) as [Hlo Hhi].
  pose proof PI_RGT_0 as Hpi.
  assert (Hk : 0 < 180 / PI) by (apply Rdiv_lt_0_compat; lra).
  split.
  - apply Rmult_le_pos; lra.
  - replace 180 with (PI * (180 / PI)) at 2 by (field; lra).
    apply Rmult_le_compat_r; lra.
Qed.


Lemma dot_comm (u v : point) : dot u v = dot v u.
Proof. unfold dot. ring. Qed.

(** X1. The angle is symmetric in its two outer points. *)
Theorem calculate_angle_symmetric (a b c : point) :
  calculate_angle a b c = calculate_angle c b a.
Proof.
  unfold calculate_angle.
  rewrite (dot_comm (sub2 a b) (sub2 c b)).
  rewrite (Rmult_comm (norm (sub2 a b)) (norm (sub2 c b))). reflexivity.
Qed.















(** ** The rule checkers *)

Lemma trunc_bounds (r : R) (lo hi : Z) :
  0 <= r -> IZR lo <= r -> r < IZR hi + 1 -> (lo <= trunc r <= hi)%Z.
Proof.
  intros H0 Hlo Hhi. unfold trunc. destruct (Rle_dec 0 r) as [_ | N]; [| contradiction].
  pose proof (base_Int_part r) as [Hle Hgt].
  split.
  - assert (H : IZR (lo - 1) < IZR (Int_part r)) by (rewrite minus_IZR; lra).
    apply lt_IZR in H. lia.
  - assert (H : IZR (Int_part r) < IZR (hi + 1)) by (rewrite plus_IZR; lra).
    apply lt_IZR in H. lia.
Qed.

Lemma calculate_angle_fin_bounds (a b c : point) (deg : R) :
  calculate_angle a b c = Fin deg -> 0 <= deg <= 180.
Proof.
  unfold calculate_angle, np_div. intros H.
  destruct (Req_dec_T _ 0) as [_ | _].
  - destruct (Req_dec_T _ 0) as [_ | _]; [discriminate H |].
    destruct (Rlt_dec 0 _); cbn [np_clip] in H; rewrite np_arccos_fin in H by lra;
      injection H as <-; apply degrees_acos_range.
  - rewrite np_arccos_clip in H. injection H as <-. apply degrees_acos_range.
Qed.

(** The squat checker when the ankle entry is anything at all. *)
Lemma check_squat_rules_four landmarks knee ankle hip shoulder toe :
  present landmarks LEFT_KNEE knee -> nth_error landmarks LEFT_ANKLE = Some ankle ->
  present landmarks LEFT_HIP hip -> present landmarks LEFT_SHOULDER shoulder ->
  present landmarks LEFT_FOOT_INDEX toe ->
  check_squat_rules landmarks = Ok (squat_issues knee hip shoulder toe).
Proof.
  unfold present, squat_issues, knee_rule. intros Hk Ha Hh Hs Ht.
  unfold_checker. rewrite Hk, Ha, Hh, Hs, Ht. step_checker.
  destruct (calculate_angle_fin_or_nan (x shoulder, y shoulder) (x hip, y hip) (x knee, y knee))
    as [[deg ->] | ->];
    destruct (Rltb (x toe) (x knee)); cbn [f64_ltb]; step_checker; try reflexivity;
    destruct (Rltb deg 150); reflexivity.
Qed.

(** The three ways the squat checker can end. *)
Lemma check_squat_rules_cases (landmarks : PyLandmarks) :
  check_squat_rules landmarks = Ok [] \/
  (exists knee toe, check_squat_rules landmarks = Ok (knee_rule knee toe)) \/
  (exists knee hip shoulder toe,
     check_squat_rules landmarks = Ok (squat_issues knee hip shoulder toe)).
Proof.
  destruct (nth_error landmarks LEFT_KNEE) as [knee |] eqn:Ek;
    [| left; apply check_squat_rules_early_failure; left; exact Ek].
  destruct (nth_error landmarks LEFT_ANKLE) as [ankle |] eqn:Ea;
    [| left; apply check_squat_rules_early_failure; right; left; exact Ea].
  destruct (nth_error landmarks LEFT_HIP) as [hip |] eqn:Eh;
    [| left; apply check_squat_rules_early_failure; right; right; left; exact Eh].
  destruct (nth_error landmarks LEFT_SHOULDER) as [shoulder |] eqn:Es;
    [| left; apply check_squat_rules_early_failure; right; right; right; left; exact Es].
  destruct (nth_error landmarks LEFT_FOOT_INDEX) as [toe |] eqn:Et;
    [| left; apply check_squat_rules_early_failure; right; right; right; right; left; exact Et].
  destruct knee as [knee |];
    [| left; apply check_squat_rules_early_failure; do 5 right; left; exact Ek].
  destruct toe as [toe |];
    [| left; apply check_squat_rules_early_failure; do 6 right; exact Et].
  assert (Nmiss : forall i v, nth_error landmarks i = Some v -> ~ missing landmarks i).
  { unfold missing. intros i v E H. rewrite E in H. discriminate H. }
  destruct shoulder as [shoulder |].
  - destruct hip as [hip |].
    + right. right. exists knee, hip, shoulder, toe.
      exact (check_squat_rules_four landmarks knee ankle hip shoulder toe Ek Ea Eh Es Et).
    + right. left. exists knee, toe.
      apply check_squat_rules_late_failure; eauto.
  - right. left. exists knee, toe.
    apply check_squat_rules_late_failure; eauto.
Qed.

Lemma knee_rule_shape (knee toe : Landmark) :
  knee_rule knee toe = [] \/ knee_rule knee toe = [knee_over_toe_issue].
Proof. unfold knee_rule. destruct (Rltb _ _); [right | left]; reflexivity. Qed.

(** X8. For every landmark sequence the squat checker returns at most
    two issues, the knee issue before the back issue, and the number in a
    back issue lies between 0 and 149. *)
Theorem squat_issues_shape (landmarks : PyLandmarks) :
  exists first second,
    check_squat_rules landmarks = Ok (first ++ second) /\
    (first = [] \/ first = ["Left knee over toe"%string]) /\
    (second = [] \/ exists n, (0 <= n <= 149)%Z /\ second = [back_angle_issue n]).
Proof.
  destruct (check_squat_rules_cases landmarks)
    as [E | [[knee [toe E]] | [knee [hip [shoulder [toe E]]]]]]; rewrite E.
  - exists [], []. repeat split; left; reflexivity.
  - exists (knee_rule knee toe), []. rewrite app_nil_r.
    split; [reflexivity |]. split; [apply knee_rule_shape | left; reflexivity].
  - unfold squat_issues. eexists (knee_rule knee toe), _.
    split; [reflexivity |]. split; [apply knee_rule_shape |].
    destruct (calculate_angle _ _ _) as [deg | | |] eqn:Eang; try (left; reflexivity).
    destruct (Rltb deg 150) eqn:Elt; [| left; reflexivity].
    right. exists (trunc deg). split; [| reflexivity].
    apply Rltb_spec in Elt. apply calculate_angle_fin_bounds in Eang.
    apply trunc_bounds; simpl; lra.
Qed.

Lemma check_sitting_rules_cases (landmarks : PyLandmarks) :
  check_sitting_rules landmarks = Ok [] \/
  (exists shoulder ear, check_sitting_rules landmarks = Ok (neck_rule shoulder ear)) \/
  (exists shoulder ear hip,
     check_sitting_rules landmarks = Ok (sitting_issues shoulder ear hip)).
Proof.
  destruct (nth_error landmarks LEFT_SHOULDER) as [shoulder |] eqn:Es;
    [| left; apply check_sitting_rules_early_failure; left; exact Es].
  destruct (nth_error landmarks LEFT_EAR) as [ear |] eqn:Ee;
    [| left; apply check_sitting_rules_early_failure; right; left; exact Ee].
  destruct (nth_error landmarks LEFT_HIP) as [hip |] eqn:Eh;
    [| left; apply check_sitting_rules_early_failure; right; right; left; exact Eh].
  destruct shoulder as [shoulder |];
    [| left; apply check_sitting_rules_early_failure; do 3 right; left; exact Es].
  destruct ear as [ear |];
    [| left; apply check_sitting_rules_early_failure; do 4 right; exact Ee].
  destruct hip as [hip |].
  - right. right. exists shoulder, ear, hip.
    exact (check_sitting_rules_present landmarks shoulder ear hip Es Ee Eh).
  - right. left. exists shoulder, ear.
    exact (check_sitting_rules_late_failure landmarks shoulder ear Es Ee Eh).
Qed.

Lemma neck_rule_shape (shoulder ear : Landmark) :
  neck_rule shoulder ear = [] \/
  exists n, (30 <= n <= 180)%Z /\ neck_rule shoulder ear = [neck_bend_issue n].
Proof.
  unfold neck_rule.
  destruct (calculate_angle _ _ _) as [deg | | |] eqn:Eang; try (left; reflexivity).
  destruct (Rltb 30 deg) eqn:Egt; [| left; reflexivity].
  right. exists (trunc deg). split; [| reflexivity].
  apply Rltb_spec in Egt. apply calculate_angle_fin_bounds in Eang.
  apply trunc_bounds; simpl; lra.
Qed.

(** X9. For every landmark sequence the sitting checker returns at most
    two issues, the neck issue before the back issue; the number in a neck
    issue lies between 30 and 180, the number in a back issue between 0
    and 159. *)
Theorem sitting_issues_shape (landmarks : PyLandmarks) :
  exists first second,
    check_sitting_rules landmarks = Ok (first ++ second) /\
    (first = [] \/ exists n, (30 <= n <= 180)%Z /\ first = [neck_bend_issue n]) /\
    (second = [] \/ exists n, (0 <= n <= 159)%Z /\ second = [back_not_straight_issue n]).
Proof.
  destruct (check_sitting_rules_cases landmarks)
    as [E | [[shoulder [ear E]] | [shoulder [ear [hip E]]]]]; rewrite E.
  - exists [], []. repeat split; left; reflexivity.
  - exists (neck_rule shoulder ear), []. rewrite app_nil_r.
    split; [reflexivity |]. split; [apply neck_rule_shape | left; reflexivity].
  - unfold sitting_issues. eexists (neck_rule shoulder ear), _.
    split; [reflexivity |]. split; [apply neck_rule_shape |].
    destruct (calculate_angle _ _ _) as [deg | | |] eqn:Eang; try (left; reflexivity).
    destruct (Rltb 20 (Rabs (deg - 180))) eqn:Egt; [| left; reflexivity].
    right. exists (trunc deg). split; [| reflexivity].
    apply Rltb_spec in Egt. apply calculate_angle_fin_bounds in Eang.
    rewrite Rabs_left1 in Egt by lra.
    apply trunc_bounds; simpl; lra.
Qed.

(** X6. Degenerate squat geometry: when the hip coincides with the
    shoulder or with the knee, the back angle is NaN, the comparison with
    150 is false, so [int()] is never applied to NaN and the checker
    returns the outcome of the knee rule alone. *)
Theorem squat_degenerate_geometry landmarks knee ankle hip shoulder toe :
  present landmarks LEFT_KNEE knee -> present landmarks LEFT_ANKLE ankle ->
  present landmarks LEFT_HIP hip -> present landmarks LEFT_SHOULDER shoulder ->
  present landmarks LEFT_FOOT_INDEX toe ->
  (x shoulder = x hip /\ y shoulder = y hip) \/ (x knee = x hip /\ y knee = y hip) ->
  calculate_angle (x shoulder, y shoulder) (x hip, y hip) (x knee, y knee) = NaN /\
  check_squat_rules landmarks =
    Ok (if Rltb (x toe) (x knee) then ["Left knee over toe"%string] else []).
Proof.
  intros Hk Ha Hh Hs Ht Hdeg.
  assert (E : calculate_angle (x shoulder, y shoulder) (x hip, y hip) (x knee, y knee) = NaN).
  { apply calculate_angle_degenerate.
    destruct Hdeg as [[E1 E2] | [E1 E2]]; [left | right]; rewrite E1, E2;
      unfold sub2; simpl; f_equal; ring. }
  split; [exact E |].
  rewrite (check_squat_rules_present landmarks knee ankle hip shoulder toe Hk Ha Hh Hs Ht).
  unfold squat_issues, knee_rule. rewrite E, app_nil_r. reflexivity.
Qed.

Lemma squat_degenerate_geometry_witness :
  check_squat_rules
    (squat_pose (at_xy 0.5 0.5) (at_xy 0.5 0.5) (at_xy 0.6 0.7) (at_xy 0.6 0.9) (at_xy 0.5 0.9))
  = Ok ["Left knee over toe"%string].
Proof.
  destruct (squat_degenerate_geometry
    (squat_pose (at_xy 0.5 0.5) (at_xy 0.5 0.5) (at_xy 0.6 0.7) (at_xy 0.6 0.9) (at_xy 0.5 0.9))
    (at_xy 0.6 0.7) (at_xy 0.6 0.9) (at_xy 0.5 0.5) (at_xy 0.5 0.5) (at_xy 0.5 0.9)
    eq_refl eq_refl eq_refl eq_refl eq_refl (or_introl (conj eq_refl eq_refl))) as [_ E].
  rewrite E. simpl x. rewrite Rltb_true by lra. reflexivity.
Defined.

(** X7. The squat checker reads x and y of knee, hip and shoulder and x
    of the toe, nothing else: two sequences that agree on these, and in
    which the ankle index exists, get the same answer, whatever the ankle
    entry, the visibilities, the y of the toe and the other entries. *)
Theorem squat_reads_four_joints landmarks landmarks' knee knee' ankle ankle' hip hip'
    shoulder shoulder' toe toe' :
  present landmarks LEFT_KNEE knee -> present landmarks' LEFT_KNEE knee' ->
  nth_error landmarks LEFT_ANKLE = Some ankle -> nth_error landmarks' LEFT_ANKLE = Some ankle' ->
  present landmarks LEFT_HIP hip -> present landmarks' LEFT_HIP hip' ->
  present landmarks LEFT_SHOULDER shoulder -> present landmarks' LEFT_SHOULDER shoulder' ->
  present landmarks LEFT_FOOT_INDEX toe -> present landmarks' LEFT_FOOT_INDEX toe' ->
  x knee = x knee' -> y knee = y knee' -> x hip = x hip' -> y hip = y hip' ->
  x shoulder = x shoulder' -> y shoulder = y shoulder' -> x toe = x toe' ->
  check_squat_rules landmarks = check_squat_rules landmarks'.
Proof.
  intros Hk Hk' Ha Ha' Hh Hh' Hs Hs' Ht Ht' E1 E2 E3 E4 E5 E6 E7.
  rewrite (check_squat_rules_four landmarks knee ankle hip shoulder toe Hk Ha Hh Hs Ht).
  rewrite (check_squat_rules_four landmarks' knee' ankle' hip' shoulder' toe' Hk' Ha' Hh' Hs' Ht').
  unfold squat_issues, knee_rule. rewrite E1, E2, E3, E4, E5, E6, E7. reflexivity.
Qed.

Lemma squat_reads_four_joints_witness :
  check_squat_rules
    (squat_pose (at_xy 0.5 0.2) (at_xy 0.5 0.5) (at_xy 0.6 0.7) (at_xy 0.5 0.9) (at_xy 0.5 0.95))
  = check_squat_rules
    (bare_squat_pose (mkLandmark 0.5 0.2 0) (mkLandmark 0.5 0.5 0) (mkLandmark 0.6 0.7 0)
       (mkLandmark 0.5 0.1 0)).
Proof.
  apply (squat_reads_four_joints _ _
    (at_xy 0.6 0.7) (mkLandmark 0.6 0.7 0) (Some (at_xy 0.5 0.9)) None
    (at_xy 0.5 0.5) (mkLandmark 0.5 0.5 0) (at_xy 0.5 0.2) (mkLandmark 0.5 0.2 0)
    (at_xy 0.5 0.95) (mkLandmark 0.5 0.1 0)); reflexivity.
Defined.

Lemma neck_issue_not_back_issue (n m : Z) : neck_bend_issue n <> back_not_straight_issue m.
Proof. unfold neck_bend_issue, back_not_straight_issue. simpl. discriminate. Qed.

Lemma In_sitting_neck_issue (shoulder ear hip : Landmark) (n : Z) :
  In (neck_bend_issue n) (sitting_issues shoulder ear hip) ->
  exists deg,
    calculate_angle (x shoulder, y shoulder) (x ear, y ear) (x shoulder, y shoulder - 1)
      = Fin deg /\ 30 < deg.
Proof.
  unfold sitting_issues, neck_rule. rewrite in_app_iff. intros [H | H].
  - destruct (calculate_angle _ _ _) as [deg | | |]; try contradiction.
    destruct (Rltb 30 deg) eqn:E; [| contradiction].
    exists deg. split; [reflexivity |]. apply Rltb_spec. exact E.
  - exfalso.
    destruct (calculate_angle (x shoulder, y shoulder) (x hip, y hip) (x hip, y hip - 1))
      as [deg | | |]; try contradiction.
    destruct (Rltb 20 (Rabs (deg - 180))); [| contradiction].
    destruct H as [H | []]. symmetry in H. exact (neck_issue_not_back_issue _ _ H).
Qed.

Lemma In_sitting_back_issue (shoulder ear hip : Landmark) (n : Z) :
  In (back_not_straight_issue n) (sitting_issues shoulder ear hip) ->
  exists deg,
    calculate_angle (x shoulder, y shoulder) (x hip, y hip) (x hip, y hip - 1) = Fin deg /\
    20 < Rabs (deg - 180).
Proof.
  unfold sitting_issues, neck_rule. rewrite in_app_iff. intros [H | H].
  - exfalso.
    destruct (calculate_angle (x shoulder, y shoulder) (x ear, y ear)
                (x shoulder, y shoulder - 1)) as [deg | | |]; try contradiction.
    destruct (Rltb 30 deg); [| contradiction].
    destruct H as [H | []]. exact (neck_issue_not_back_issue _ _ H).
  - destruct (calculate_angle _ _ _) as [deg | | |]; try contradiction.
    destruct (Rltb 20 (Rabs (deg - 180))) eqn:E; [| contradiction].
    exists deg. split; [reflexivity |]. apply Rltb_spec. exact E.
Qed.

(** X10. With shoulder, ear and hip in the sequence, the sitting checker
    reports "Neck bend too large" exactly when the angle at the ear between
    the shoulder and the point one unit above the shoulder exceeds 30, and
    "Back not straight" exactly when the angle at the hip between the
    shoulder and the point one unit above the hip is more than 20 away
    from 180; each message carries the integer part of its angle. *)
Theorem sitting_rules landmarks shoulder ear hip :
  present landmarks LEFT_SHOULDER shoulder -> present landmarks LEFT_EAR ear ->
  present landmarks LEFT_HIP hip ->
  exists found, check_sitting_rules landmarks = Ok found /\
    let neck_angle :=
      calculate_angle (x shoulder, y shoulder) (x ear, y ear) (x shoulder, y shoulder - 1) in
    let back_angle :=
      calculate_angle (x shoulder, y shoulder) (x hip, y hip) (x hip, y hip - 1) in
    (f64_gtb neck_angle (Fin 30) = true ->
     exists n, py_int neck_angle = Ok n /\ In (neck_bend_issue n) found) /\
    (f64_gtb neck_angle (Fin 30) = false -> forall n, ~ In (neck_bend_issue n) found) /\
    (f64_gtb (f64_abs (f64_sub back_angle 180)) (Fin 20) = true ->
     exists n, py_int back_angle = Ok n /\ In (back_not_straight_issue n) found) /\
    (f64_gtb (f64_abs (f64_sub back_angle 180)) (Fin 20) = false ->
     forall n, ~ In (back_not_straight_issue n) found).
Proof.
  intros Hs He Hh.
  exists (sitting_issues shoulder ear hip). split.
  { exact (check_sitting_rules_present landmarks shoulder ear hip Hs He Hh). }
  cbv zeta. unfold f64_gtb. split; [| split; [| split]].
  - intros Hgt.
    destruct (calculate_angle_fin_or_nan (x shoulder, y shoulder) (x ear, y ear)
                (x shoulder, y shoulder - 1)) as [[deg E] | E];
      rewrite E in Hgt; simpl in Hgt; try discriminate.
    exists (trunc deg). split; [rewrite E; reflexivity |].
    unfold sitting_issues, neck_rule. rewrite E, Hgt.
    apply in_or_app. left. left. reflexivity.
  - intros Hf n Hin. apply In_sitting_neck_issue in Hin. destruct Hin as [deg [E Hgt]].
    rewrite E in Hf. simpl in Hf. rewrite Rltb_true in Hf by assumption. discriminate.
  - intros Hgt.
    destruct (calculate_angle_fin_or_nan (x shoulder, y shoulder) (x hip, y hip)
                (x hip, y hip - 1)) as [[deg E] | E];
      rewrite E in Hgt; simpl in Hgt; try discriminate.
    exists (trunc deg). split; [rewrite E; reflexivity |].
    unfold sitting_issues. rewrite E, Hgt.
    apply in_or_app. right. left. reflexivity.
  - intros Hf n Hin. apply In_sitting_back_issue in Hin. destruct Hin as [deg [E Hgt]].
    rewrite E in Hf. simpl in Hf. rewrite Rltb_true in Hf by assumption. discriminate.
Qed.

Lemma sitting_rules_witness :
  exists found,
    check_sitting_rules (sitting_pose (at_xy 0.5 0.5) (at_xy 0.5 0.3) (at_xy 0.5 0.8)) = Ok found /\
    exists n, In (neck_bend_issue n) found.
Proof.
  destruct (sitting_rules (sitting_pose (at_xy 0.5 0.5) (at_xy 0.5 0.3) (at_xy 0.5 0.8))
              (at_xy 0.5 0.5) (at_xy 0.5 0.3) (at_xy 0.5 0.8) eq_refl eq_refl eq_refl)
    as [found [E [Hneck _]]].
  exists found. split; [exact E |].
  destruct Hneck as [n [_ Hin]].
  - simpl x. simpl y.
    replace (calculate_angle (0.5, 0.5) (0.5, 0.3) (0.5, 0.5 - 1)) with (Fin 180)
      by (symmetry; apply calculate_angle_vertical; simpl; lra).
    unfold f64_gtb. simpl. apply Rltb_true. lra.
  - exists n. exact Hin.
Defined.



(** X12. On a sequence of 33 landmark objects, as the pose model
    delivers it, neither checker takes its failure path: both rules of
    each checker run on the joints at the indices 7, 11, 23, 25 and 31. *)
Theorem rules_run_on_full_schema (landmarks : list Landmark) (d : Landmark) :
  List.length landmarks = 33%nat ->
  check_squat_rules (map Some landmarks) =
    Ok (squat_issues (nth LEFT_KNEE landmarks d) (nth LEFT_HIP landmarks d)
          (nth LEFT_SHOULDER landmarks d) (nth LEFT_FOOT_INDEX landmarks d)) /\
  check_sitting_rules (map Some landmarks) =
    Ok (sitting_issues (nth LEFT_SHOULDER landmarks d) (nth LEFT_EAR landmarks d)
          (nth LEFT_HIP landmarks d)).
Proof.
  intros Hlen.
  assert (Hnth : forall i, (i < 33)%nat ->
            present (map Some landmarks) i (nth i landmarks d)).
  { intros i Hi. unfold present. rewrite nth_error_map.
    rewrite (nth_error_nth' landmarks d) by (rewrite Hlen; exact Hi). reflexivity. }
  split.
  - apply (check_squat_rules_present _ _ (nth LEFT_ANKLE landmarks d));
      apply Hnth; unfold LEFT_KNEE, LEFT_ANKLE, LEFT_HIP, LEFT_SHOULDER, LEFT_FOOT_INDEX; lia.
  - apply check_sitting_rules_present;
      apply Hnth; unfold LEFT_EAR, LEFT_HIP, LEFT_SHOULDER; lia.
Qed.

Lemma rules_run_on_full_schema_witness :
  check_squat_rules (map Some standing_landmarks) = Ok [] /\
  check_sitting_rules (map Some standing_landmarks) = Ok [].
Proof.
  destruct (rules_run_on_full_schema standing_landmarks (at_xy 0 0) eq_refl) as [Esq Esi].
  rewrite Esq, Esi. unfold squat_issues, sitting_issues, knee_rule, neck_rule.
  cbn [nth standing_landmarks repeat LEFT_KNEE LEFT_HIP LEFT_SHOULDER LEFT_FOOT_INDEX LEFT_EAR
       x y at_xy].
  rewrite Rltb_false by lra.
  rewrite (calculate_angle_degenerate (0.5, 0.5) (0.5, 0.5) (0.5, 0.5))
    by (left; unfold sub2; simpl; f_equal; lra).
  rewrite (calculate_angle_degenerate (0.5, 0.5) (0.5, 0.5) (0.5, 0.5 - 1))
    by (left; unfold sub2; simpl; f_equal; lra).
  split; reflexivity.
Defined.

(** ** The endpoints *)

Section EndpointExtras.

Context {Image PoseState : Type}.
Variable decode_image : Bytes -> option Image.
Variable decode_video : Bytes -> option (list Image).
Variable bgr2rgb : Image -> Image.
Variable Pose : bool -> PoseState.
Variable pose_process : PoseState -> Image -> PoseState * option (list Landmark).

(** X13. An upload that does not open as a video is no error for
    [analyze_video]: the loop is not entered, the result has no frames and
    the temporary file is removed. *)
Theorem analyze_video_unopened (file : Bytes) (activity : string) (fs : FS) :
  decode_video file = None ->
  analyze_video decode_video bgr2rgb Pose pose_process file activity fs
    = (Ok (mkVideoResult []), fs).
Proof.
  intros Hdec.
  unfold analyze_video, bind, NamedTemporaryFile, cv2_VideoCapture, lift.
  rewrite lookup_new_file, Hdec. cbn [isOpened pending video_loop].
  rewrite os_remove_new_file. reflexivity.
Qed.

(** X14. [analyze_frame] on an upload that decodes to an image: without
    a body the result has no issues and no keypoints; with a body the
    keypoints are the landmarks in order and the issues are those of the
    checker named by the activity; in both cases the temporary file is
    removed. *)
Theorem analyze_frame_result (file : Bytes) (activity : string) (fs : FS) (image : Image) :
  decode_image file = Some image ->
  let results := snd (pose_process (Pose true) (bgr2rgb image)) in
  (results = None ->
   analyze_frame decode_image bgr2rgb Pose pose_process file activity fs
     = (Ok (mkImageResult [] []), fs)) /\
  (forall landmarks, results = Some landmarks ->
   exists found,
     analyze_frame decode_image bgr2rgb Pose pose_process file activity fs
       = (Ok (mkImageResult found (map keypoint_of landmarks)), fs) /\
     (activity = "squat"%string -> check_squat_rules (map Some landmarks) = Ok found) /\
     (activity = "sitting"%string -> check_sitting_rules (map Some landmarks) = Ok found)).
Proof.
  intros Hdec results.
  destruct (analyze_frame_spec decode_image bgr2rgb Pose pose_process file activity fs image Hdec)
    as [found [points [Erun Hbuilt]]].
  fold results in Hbuilt. split.
  - intros Hnone. rewrite Hnone in Hbuilt. simpl in Hbuilt.
    injection Hbuilt as <- <-. exact Erun.
  - intros landmarks Hsome. rewrite Hsome in Hbuilt. exists found.
    unfold rules_and_keypoints in Hbuilt.
    destruct (String.eqb_spec activity "squat") as [Esq | Nsq].
    + destruct (check_squat_rules (map Some landmarks)) as [l | e] eqn:Ecs; [| discriminate].
      injection Hbuilt as -> <-. split; [exact Erun |].
      split; [reflexivity |]. intros Esi. rewrite Esq in Esi. discriminate.
    + destruct (String.eqb_spec activity "sitting") as [Esi | Nsi].
      * destruct (check_sitting_rules (map Some landmarks)) as [l | e] eqn:Ecs; [| discriminate].
        injection Hbuilt as -> <-. split; [exact Erun |].
        split; [contradiction | reflexivity].
      * injection Hbuilt as <- <-. split; [exact Erun |]. split; contradiction.
Qed.

Lemma video_loop_app (activity : string) (l1 l2 : list Image) :
  forall pose frame_idx processed_idx frame_results,
  exists out1 out2,
    video_loop bgr2rgb pose_process activity true l1 pose frame_idx processed_idx frame_results
      = Ok (frame_results ++ out1) /\
    video_loop bgr2rgb pose_process activity true (l1 ++ l2) pose frame_idx processed_idx
      frame_results = Ok (frame_results ++ out1 ++ out2).
Proof.
  induction l1 as [| image rest IH]; intros pose frame_idx processed_idx frame_results.
  - destruct (video_loop_spec bgr2rgb pose_process activity l2 pose frame_idx processed_idx
                frame_results) as [out [E _]].
    exists [], out. split; [simpl; rewrite app_nil_r; reflexivity | exact E].
  - cbn [video_loop app cv2_cvtColor].
    destruct (Nat.eqb (frame_idx mod frame_skip) 0); cbn [negb].
    + destruct (pose_process pose (bgr2rgb image)) as [pose' results].
      destruct (rules_and_keypoints_ok activity results) as [found [Eblock _]].
      rewrite Eblock.
      destruct (IH pose' (frame_idx + 1)%nat (processed_idx + 1)%nat
                  (frame_results ++ [mkFrameResult frame_idx found
                     (match results with Some l => map keypoint_of l | None => [] end)]))
        as [out1 [out2 [E1 E2]]].
      eexists (_ :: out1), out2. rewrite E1, E2, <- !app_assoc. split; reflexivity.
    + apply IH.
Qed.

(** X15. A longer video only adds frame results: when the frames of one
    upload are a prefix of the frames of another, the result of the first
    is a prefix of the result of the second. *)
Theorem analyze_video_prefix (file file' : Bytes) (activity : string) (fs : FS)
    (images more : list Image) :
  decode_video file = Some images -> decode_video file' = Some (images ++ more) ->
  exists out out',
    analyze_video decode_video bgr2rgb Pose pose_process file activity fs
      = (Ok (mkVideoResult out), fs) /\
    analyze_video decode_video bgr2rgb Pose pose_process file' activity fs
      = (Ok (mkVideoResult (out ++ out')), fs).
Proof.
  intros Hdec Hdec'.
  destruct (video_loop_app activity images more (Pose false) 0%nat 0%nat [])
    as [out [out' [E1 E2]]].
  exists out, out'.
  unfold analyze_video, bind, NamedTemporaryFile, cv2_VideoCapture, lift.
  rewrite !lookup_new_file, Hdec, Hdec'. cbn [isOpened pending].
  rewrite E1, E2. cbn [app]. rewrite !os_remove_new_file. split; reflexivity.
Qed.

(** X16. Every frame result of [analyze_video] comes from one call of
    the pose model, in order: it carries the index of that frame, the
    landmarks of that answer as keypoints, and the issues of the checker
    named by the activity, or nothing when no body was found. *)
Theorem analyze_video_frames (file : Bytes) (activity : string) (fs : FS) :
  exists out,
    analyze_video decode_video bgr2rgb Pose pose_process file activity fs
      = (Ok (mkVideoResult out), fs) /\
    Forall2 (fun answer fr =>
               frame fr = fst answer /\
               match snd answer with
               | Some landmarks =>
                   frame_keypoints fr = map keypoint_of landmarks /\
                   (activity = "squat"%string ->
                    check_squat_rules (map Some landmarks) = Ok (frame_issues fr)) /\
                   (activity = "sitting"%string ->
                    check_sitting_rules (map Some landmarks) = Ok (frame_issues fr))
               | None => frame_keypoints fr = [] /\ frame_issues fr = []
               end)
      (pose_answers bgr2rgb pose_process (frames_of decode_video file) (Pose false) 0) out.
Proof.
  destruct (analyze_video_spec decode_video bgr2rgb Pose pose_process file activity fs)
    as [out [Erun [_ Hall]]].
  exists out. split; [exact Erun |].
  eapply Forall2_impl; [| exact Hall].
  intros answer fr [Hidx Hbuilt]. split; [exact Hidx |].
  unfold rules_and_keypoints in Hbuilt.
  destruct (snd answer) as [landmarks |].
  - destruct (String.eqb_spec activity "squat") as [Esq | Nsq].
    + destruct (check_squat_rules (map Some landmarks)) as [l | e] eqn:Ecs; [| discriminate].
      injection Hbuilt as -> <-. split; [reflexivity |].
      split; [reflexivity |]. intros Esi. rewrite Esq in Esi. discriminate.
    + destruct (String.eqb_spec activity "sitting") as [Esi | Nsi].
      * destruct (check_sitting_rules (map Some landmarks)) as [l | e] eqn:Ecs; [| discriminate].
        injection Hbuilt as -> <-. split; [reflexivity |].
        split; [contradiction | reflexivity].
      * injection Hbuilt as <- <-. split; [reflexivity |]. split; contradiction.
  - injection Hbuilt as <- <-. split; reflexivity.
Qed.

End EndpointExtras.

Lemma analyze_video_unopened_witness :
  analyze_video fake_decode_video fake_bgr2rgb fake_Pose fake_pose_process (upload 0) "squat" []
    = (Ok (mkVideoResult []), []).
Proof.
  exact (analyze_video_unopened fake_decode_video fake_bgr2rgb fake_Pose fake_pose_process
           (upload 0) "squat" [] eq_refl).
Defined.

Lemma analyze_frame_result_witness :
  exists found,
    analyze_frame fake_decode_image fake_bgr2rgb fake_Pose fake_pose_process (upload 2) "squat" []
      = (Ok (mkImageResult found (map keypoint_of standing_landmarks)), []) /\
    check_squat_rules (map Some standing_landmarks) = Ok found.
Proof.
  destruct (analyze_frame_result fake_decode_image fake_bgr2rgb fake_Pose fake_pose_process
              (upload 2) "squat" [] 2%nat eq_refl) as [_ Hbody].
  destruct (Hbody standing_landmarks eq_refl) as [found [Erun [Hsquat _]]].
  exists found. split; [exact Erun | exact (Hsquat eq_refl)].
Defined.

Lemma analyze_video_prefix_witness :
  exists out out',
    analyze_video fake_decode_video fake_bgr2rgb fake_Pose fake_pose_process (upload 3) "squat" []
      = (Ok (mkVideoResult out), []) /\
    analyze_video fake_decode_video fake_bgr2rgb fake_Pose fake_pose_process (upload 7) "squat" []
      = (Ok (mkVideoResult (out ++ out')), []).
Proof.
  exact (analyze_video_prefix fake_decode_video fake_bgr2rgb fake_Pose fake_pose_process
           (upload 3) (upload 7) "squat" [] (seq 0 3) (seq 3 4) eq_refl eq_refl).
Defined.
